(** * kvz_rtp (uvgRTP): media_stream, the RTP data path and the RTCP control loop

    The development follows the repository's C++ namespaces: one module per
    class.  [media_stream] is translated from media_stream.cc; [rtcp] from the
    declarations and comments of rtcp.hh.  The classes that media_stream.cc
    only calls ([socket], [rtp], [sender], [receiver]) and the bodies that
    rtcp.hh only declares are not part of this tree; each of their
    definitions says so and follows the specification instead. *)

From Stdlib Require Import ZArith QArith Lqa Lia.
From stdpp Require Import base numbers list strings.

Open Scope Z_scope.

(** ** Shared types (util.hh) *)

(** The error taxonomy.  media_stream.cc and rtcp.hh name [RTP_OK],
    [RTP_GENERIC_ERROR], [RTP_INVALID_VALUE], [RTP_SEND_ERROR] and
    [RTP_MEMORY_ERROR]; the others complete the list of the specification. *)
Inductive rtp_error_t : Set :=
  | RTP_OK
  | RTP_GENERIC_ERROR
  | RTP_INVALID_VALUE
  | RTP_SEND_ERROR
  | RTP_RECV_ERROR
  | RTP_MEMORY_ERROR
  | RTP_PAYLOAD_TOO_BIG
  | RTP_TIMEOUT
  | RTP_AUTH_FAILURE
  | RTP_NOT_READY.

#[global] Instance rtp_error_t_eq_dec : EqDecision rtp_error_t.
Proof. solve_decision. Defined.

(** Modelled from the spec: [rtp_format_t] is declared in util.hh, which is
    missing; the two payload disciplines of the specification stand for it. *)
Inductive rtp_format_t : Set :=
  | RTP_FORMAT_OPAQUE
  | RTP_FORMAT_FRAGMENTING.

(** A [void *] or a function pointer is an address; [nullptr] is 0. *)
Definition voidp := Z.
Definition fnptr := Z.
Definition nullptr : Z := 0.

(** [!p] on a pointer. *)
Definition is_null (p : Z) : bool := p =? nullptr.

(** A pointer member that the constructor does not initialise holds an
    indeterminate value until a function assigns it: [indeterminate]
    before, [Some] of the object after.  It is not null: no function of
    media_stream.cc assigns null to such a member or tests it.  A call
    that uses an indeterminate pointer has undefined behaviour; the
    functions below give such a call no result ([None]) and say nothing
    about what it does. *)
Abbreviation indeterminate := None.

(** The answer of a call that may use a pointer that was never assigned:
    [None], no defined answer, when it does. *)
Definition answer {A : Type} (res : option (rtp_error_t * A)) : option rtp_error_t :=
  fst <$> res.

(** The context configuration [ctx_config_]: [flags] is or-ed with the
    boolean flags, [ctx_values] is the array of numeric parameters, one cell
    per flag below [RCC_LAST]. *)
Record rtp_ctx_conf : Type := mk_ctx_conf {
  flags : Z;
  ctx_values : list Z
}.

(** 16-bit sequence numbers and 32-bit timestamps wrap around. *)
Definition SEQ_MOD : Z := 65536.
Definition TS_MOD : Z := 4294967296.

(** The run [s, s+1, ..., s+n-1] of sequence numbers modulo 2^16. *)
Definition seq_numbers (s : Z) (n : nat) : list Z :=
  (fun i => (s + i) mod SEQ_MOD) <$> seqZ 0 (Z.of_nat n).

(** ** RTP packets and frames (frame.hh) *)

Module frame.

(** The fields of the fixed 12-octet RTP header that the framer's [build]
    receives and its [parse] returns. *)
Record rtp_header : Type := mk_header {
  marker : bool;
  payload_type : Z;
  seq : Z;
  timestamp : Z;
  ssrc : Z
}.

(** The fragment-unit header: start and end flags (a middle fragment
    carries neither) and the type of the unit that was split. *)
Record fu_header : Type := mk_fu {
  fu_start : bool;
  fu_end : bool;
  fu_type : Z
}.

(** The payload of a datagram as the depacketizer sees it after parsing:
    a whole unit, or one fragment behind its fragment-unit header.  The
    octets that carry the header on the wire are the format's business and
    are not modelled. *)
Inductive rtp_body : Type :=
  | Whole (payload : list Byte.byte)
  | Fragment (fu : fu_header) (chunk : list Byte.byte).

Record rtp_packet : Type := mk_packet {
  header : rtp_header;
  body : rtp_body
}.

(** A reassembled frame, as handed to the application. *)
Record rtp_frame : Type := mk_frame {
  frame_timestamp : Z;
  frame_payload : list Byte.byte
}.

(** The RTCP packets the session builds itself: a Sender Report with the
    sender's packet and octet counts, a Receiver Report, a BYE. *)
Inductive rtcp_frame : Type :=
  | rtcp_sender_frame (pkt_count octet_count : Z)
  | rtcp_receiver_frame
  | rtcp_bye_frame.

Definition is_bye (f : rtcp_frame) : bool :=
  match f with rtcp_bye_frame => true | _ => false end.

Definition is_sender_report (f : rtcp_frame) : bool :=
  match f with rtcp_sender_frame _ _ => true | _ => false end.

Definition is_receiver_report (f : rtcp_frame) : bool :=
  match f with rtcp_receiver_frame => true | _ => false end.

End frame.

(** The sequence numbers a list of datagrams carries. *)
Definition wire_seqs (pkts : list frame.rtp_packet) : list Z :=
  (fun pkt => frame.seq (frame.header pkt)) <$> pkts.

(** ** The datagram socket (socket.hh) *)

Module socket.

Record sockaddr_in : Type := mk_sockaddr {
  sin_family : Z;
  sin_addr : string;
  sin_port : Z
}.

(** The calls a socket object receives, in the order it receives them. *)
Inductive call : Type :=
  | Init (domain type protocol : Z)
  | Setsockopt (level optname optval : Z)
  | Bind (domain host port : Z)
  | SetSockaddr (sa : sockaddr_in)
  | Send (pkt : frame.rtp_packet)
  | SendTo (dest : Z) (f : frame.rtcp_frame).

(** The constants of the system headers that [init_connection] names. *)
Definition AF_INET : Z := 2.
Definition SOCK_DGRAM : Z := 2.
Definition INADDR_ANY : Z := 0.
Definition SOL_SOCKET : Z := 1.
Definition SO_REUSEADDR : Z := 2.

(** Modelled from the spec: class [kvz_rtp::socket] is missing.  The object
    keeps the calls made on it; [os] is the operating system behind it,
    which answers every call given the calls made before. *)
Record t : Type := mk {
  os : list call -> call -> rtp_error_t;
  calls : list call;
  remote : option sockaddr_in
}.

(** A system on which every call succeeds. *)
Definition reliable : list call -> call -> rtp_error_t := fun _ _ => RTP_OK.

(** The system behind socket [s] lets every call succeed. *)
Definition always_ok (s : t) : Prop := forall h c, os s h c = RTP_OK.

(** [socket_()]: the default-constructed member. *)
Definition new (os : list call -> call -> rtp_error_t) : t :=
  {| os := os; calls := []; remote := None |}.

Definition perform (c : call) (s : t) : rtp_error_t * t :=
  (os s (calls s) c, {| os := os s; calls := calls s ++ [c]; remote := remote s |}).

Definition init (domain type protocol : Z) (s : t) : rtp_error_t * t :=
  perform (Init domain type protocol) s.

(** [setsockopt]: media_stream.cc names it only in a block that is not
    compiled. *)
Definition setsockopt (level optname optval : Z) (s : t) : rtp_error_t * t :=
  perform (Setsockopt level optname optval) s.

Definition bind (domain host port : Z) (s : t) : rtp_error_t * t :=
  perform (Bind domain host port) s.

Definition create_sockaddr (family : Z) (host : string) (port : Z) : sockaddr_in :=
  {| sin_family := family; sin_addr := host; sin_port := port |}.

Definition set_sockaddr (sa : sockaddr_in) (s : t) : t :=
  {| os := os s; calls := calls s ++ [SetSockaddr sa]; remote := Some sa |}.

Definition send (pkt : frame.rtp_packet) (s : t) : rtp_error_t * t :=
  perform (Send pkt) s.

Definition sendto (dest : Z) (f : frame.rtcp_frame) (s : t) : rtp_error_t * t :=
  perform (SendTo dest f) s.

(** A call that switches address reuse on. *)
Definition enables_reuseaddr (c : call) : bool :=
  match c with
  | Setsockopt level optname optval =>
      (level =? SOL_SOCKET) && (optname =? SO_REUSEADDR) && negb (optval =? 0)
  | _ => false
  end.

(** The datagrams handed to the socket, oldest first: what a packet
    capture shows when no send fails. *)
Fixpoint sent (cs : list call) : list frame.rtp_packet :=
  match cs with
  | [] => []
  | Send pkt :: cs' => pkt :: sent cs'
  | _ :: cs' => sent cs'
  end.

End socket.

(** ** The RTP session state (rtp.hh) *)

Module rtp.

(** Modelled from the spec: class [kvz_rtp::rtp] is missing.  It is the
    per-session state the specification gives a Session: the SSRC, the
    16-bit sequence number, the 32-bit timestamp and the per-frame
    timestamp increment of the payload format. *)
Record t : Type := mk {
  ssrc : Z;
  seq : Z;
  timestamp : Z;
  payload_type : Z;
  ts_increment : Z
}.

(** Modelled from the spec: the constructor is missing.  [pt] and [ts_inc]
    are the payload type and the per-frame timestamp increment of the
    format; SSRC, first sequence number and first timestamp are drawn at
    random, and [rnd] is the draw. *)
Definition new (pt ts_inc : Z) (rnd : Z * Z * Z) : t :=
  let '(r_ssrc, r_seq, r_ts) := rnd in
  {| ssrc := r_ssrc mod TS_MOD;
     seq := r_seq mod SEQ_MOD;
     timestamp := r_ts mod TS_MOD;
     payload_type := pt mod 128;
     ts_increment := ts_inc |}.

(** Modelled from the spec: the sequence number is post-incremented per
    datagram, modulo 2^16. *)
Definition inc_seq (r : t) : t :=
  {| ssrc := ssrc r; seq := (seq r + 1) mod SEQ_MOD; timestamp := timestamp r;
     payload_type := payload_type r; ts_increment := ts_increment r |}.

(** Modelled from the spec: the timestamp advances by the per-frame
    increment, modulo 2^32. *)
Definition inc_ts (r : t) : t :=
  {| ssrc := ssrc r; seq := seq r; timestamp := (timestamp r + ts_increment r) mod TS_MOD;
     payload_type := payload_type r; ts_increment := ts_increment r |}.

(** Modelled from the spec: the framer's [build], the datagram for one
    payload at the session's current sequence number and timestamp. *)
Definition build (m : bool) (b : frame.rtp_body) (r : t) : frame.rtp_packet :=
  {| frame.header := {| frame.marker := m; frame.payload_type := payload_type r;
                        frame.seq := seq r; frame.timestamp := timestamp r;
                        frame.ssrc := ssrc r |};
     frame.body := b |}.

End rtp.

(** ** Payload formatters (formats/) *)

Module formats.

(** The default fragment-payload ceiling, in octets. *)
Definition DEFAULT_CEILING : nat := 1400.

(** Modelled from the spec: the type of a unit, the low five bits (Type:5)
    of its first octet. *)
Definition unit_type (B : list Byte.byte) : Z :=
  match B with
  | [] => 0
  | b :: _ => Z.land (Z.of_N (Byte.to_N b)) 31
  end.

(** How many fragments a unit of [len] octets needs. *)
Definition fragment_count (len ceiling : nat) : nat :=
  ((len + ceiling - 1) / ceiling)%nat.

(** Modelled from the spec: the loop over the fragments of one unit.  [k]
    fragments are left, each takes the next [ceiling] octets; the first
    carries the start flag, the last the end flag and the marker. *)
Fixpoint split_fragments (k ceiling : nat) (first : bool) (ty : Z)
    (B : list Byte.byte) : list (bool * frame.rtp_body) :=
  match k with
  | O => []
  | S k' =>
      let last := match k' with O => true | S _ => false end in
      (last, frame.Fragment {| frame.fu_start := first; frame.fu_end := last;
                               frame.fu_type := ty |} (take ceiling B))
        :: split_fragments k' ceiling false ty (drop ceiling B)
  end.

(** Modelled from the spec: the fragmenting formatter is missing.  A unit
    within the ceiling is one packet with the marker set; a larger one is
    split into fragments. *)
Definition fragmenting (ceiling : nat) (B : list Byte.byte) : list (bool * frame.rtp_body) :=
  if (length B <=? ceiling)%nat then [(true, frame.Whole B)]
  else split_fragments (fragment_count (length B) ceiling) ceiling true (unit_type B) B.

(** Modelled from the spec: the opaque formatter is missing.  One frame is
    one packet with the marker set when it fits in the MTU; oversize input
    is refused ([RTP_PAYLOAD_TOO_BIG]). *)
Definition opaque (mtu : nat) (B : list Byte.byte) : option (list (bool * frame.rtp_body)) :=
  if (length B <=? mtu)%nat then Some [(true, frame.Whole B)] else None.

(** Modelled from the spec: each frame is routed to the formatter selected
    by the payload format of the stream. *)
Definition format (fmt : rtp_format_t) (mtu ceiling : nat) (B : list Byte.byte)
    : option (list (bool * frame.rtp_body)) :=
  match fmt with
  | RTP_FORMAT_OPAQUE => opaque mtu B
  | RTP_FORMAT_FRAGMENTING => Some (fragmenting ceiling B)
  end.

(** Modelled from the spec: the formatter hands each payload to the
    framer; every produced datagram takes the session's sequence number,
    which is then incremented; all datagrams of one frame share the
    timestamp. *)
Fixpoint packetize (items : list (bool * frame.rtp_body)) (r : rtp.t)
    : list frame.rtp_packet * rtp.t :=
  match items with
  | [] => ([], r)
  | (m, b) :: rest =>
      let pkt := rtp.build m b r in
      let '(pkts, r') := packetize rest (rtp.inc_seq r) in
      (pkt :: pkts, r')
  end.

(** ** The depacketizer *)

Definition DEFAULT_REORDER_WINDOW : Z := 128.

(** One fragment held in a reassembly slot. *)
Record entry : Type := mk_entry {
  e_seq : Z;
  e_fu : frame.fu_header;
  e_chunk : list Byte.byte
}.

(** A reassembly slot: the fragments of one timestamp, oldest sequence
    number first, and the highest sequence number seen. *)
Record slot : Type := mk_slot {
  frags : list entry;
  highest : Z
}.

(** How far sequence number [s] is behind [h], modulo 2^16. *)
Definition behind (h s : Z) : Z := (h - s) mod SEQ_MOD.

(** Modelled from the spec: out-of-order fragments within one timestamp
    are reordered by sequence number.  A late fragment goes to its place; a
    duplicate is refused. *)
Fixpoint insert_by_seq (h : Z) (x : entry) (l : list entry) : option (list entry) :=
  match l with
  | [] => Some [x]
  | e :: l' =>
      if behind h (e_seq e) =? behind h (e_seq x) then None
      else if behind h (e_seq e) <? behind h (e_seq x) then Some (x :: l)
      else option_map (cons e) (insert_by_seq h x l')
  end.

(** Modelled from the spec: a fragment enters its slot.  One ahead of the
    highest is appended; a
    late one is reordered by sequence number, unless it is more than the
    reorder window behind the highest: then it is discarded ([None]). *)
Definition slot_insert (window : Z) (x : entry) (o : option slot) : option slot :=
  match o with
  | None => Some {| frags := [x]; highest := e_seq x |}
  | Some sl =>
      let d := behind (highest sl) (e_seq x) in
      if d =? 0 then None
      else if d <? SEQ_MOD / 2 then
        if window <? d then None
        else option_map (fun l => {| frags := l; highest := highest sl |})
                        (insert_by_seq (highest sl) x (frags sl))
      else Some {| frags := frags sl ++ [x]; highest := e_seq x |}
  end.

(** The sequence numbers of [l] follow [prev] without a gap. *)
Fixpoint contiguous (prev : Z) (l : list entry) : bool :=
  match l with
  | [] => true
  | e :: l' => (e_seq e =? (prev + 1) mod SEQ_MOD) && contiguous (e_seq e) l'
  end.


Fixpoint last_is_end (e : entry) (l : list entry) : bool :=
  match l with
  | [] => frame.fu_end (e_fu e)
  | e' :: l' => last_is_end e' l'
  end.

(** Modelled from the spec: reassembly never delivers a frame with gaps.
    A slot is complete when it runs from a start-flagged fragment to an
    end-flagged one without a gap in the sequence numbers. *)
Definition slot_complete (sl : slot) : bool :=
  match frags sl with
  | [] => false
  | e :: l => frame.fu_start (e_fu e) && contiguous (e_seq e) l && last_is_end e l
  end.

Definition assemble (ts : Z) (sl : slot) : frame.rtp_frame :=
  {| frame.frame_timestamp := ts;
     frame.frame_payload := concat (map e_chunk (frags sl)) |}.

(** The slots, keyed by timestamp, in the order they were opened. *)
Definition slots := list (Z * slot).

Fixpoint find_slot (ts : Z) (ss : slots) : option slot :=
  match ss with
  | [] => None
  | (ts', sl) :: ss' => if ts' =? ts then Some sl else find_slot ts ss'
  end.

Fixpoint remove_slot (ts : Z) (ss : slots) : slots :=
  match ss with
  | [] => []
  | (ts', sl) :: ss' => if ts' =? ts then remove_slot ts ss' else (ts', sl) :: remove_slot ts ss'
  end.

Fixpoint put_slot (ts : Z) (sl : slot) (ss : slots) : slots :=
  match ss with
  | [] => [(ts, sl)]
  | (ts', sl') :: ss' => if ts' =? ts then (ts, sl) :: ss' else (ts', sl') :: put_slot ts sl ss'
  end.

(** Modelled from the spec: flush-on-advance.  A datagram of timestamp
    [ts] closes every slot of a
    lower timestamp; a complete one is delivered, an incomplete one is
    dropped. *)
Fixpoint flush_older (ts : Z) (ss : slots) : list frame.rtp_frame * slots :=
  match ss with
  | [] => ([], [])
  | (ts', sl) :: ss' =>
      let '(out, keep) := flush_older ts ss' in
      if ts' <? ts
      then ((if slot_complete sl then [assemble ts' sl] else []) ++ out, keep)
      else (out, (ts', sl) :: keep)
  end.




Record depacketizer : Type := mk_depacketizer {
  dp_slots : slots;
  reorder_window : Z
}.

Definition depacketizer_new : depacketizer :=
  {| dp_slots := []; reorder_window := DEFAULT_REORDER_WINDOW |}.

(** Modelled from the spec: the depacketizer is missing.  One parsed
    datagram goes in, the frames it completes come out.  A whole unit is a
    frame of its own; a fragment joins the slot of its timestamp, and the
    end-flagged fragment delivers the slot once it is complete. *)
Definition depacketize (pkt : frame.rtp_packet) (dp : depacketizer)
    : list frame.rtp_frame * depacketizer :=
  let ts := frame.timestamp (frame.header pkt) in
  let '(out, ss) := flush_older ts (dp_slots dp) in
  match frame.body pkt with
  | frame.Whole payload =>
      (out ++ [{| frame.frame_timestamp := ts; frame.frame_payload := payload |}],
       {| dp_slots := ss; reorder_window := reorder_window dp |})
  | frame.Fragment fu chunk =>
      let x := {| e_seq := frame.seq (frame.header pkt); e_fu := fu; e_chunk := chunk |} in
      match slot_insert (reorder_window dp) x (find_slot ts ss) with
      | None => (out, {| dp_slots := ss; reorder_window := reorder_window dp |})
      | Some sl =>
          if frame.fu_end fu && slot_complete sl
          then (out ++ [assemble ts sl],
                {| dp_slots := remove_slot ts ss; reorder_window := reorder_window dp |})
          else (out, {| dp_slots := put_slot ts sl ss; reorder_window := reorder_window dp |})
      end
  end.

(** A run of datagrams through the depacketizer, in arrival order. *)
Fixpoint depacketize_all (pkts : list frame.rtp_packet) (dp : depacketizer)
    : list frame.rtp_frame * depacketizer :=
  match pkts with
  | [] => ([], dp)
  | pkt :: rest =>
      let '(out, dp') := depacketize pkt dp in
      let '(out', dp'') := depacketize_all rest dp' in
      (out ++ out', dp'')
  end.

End formats.

(** ** The sender (sender.hh) *)

Module sender.

(** Modelled from the spec: class [kvz_rtp::sender] is missing.  Besides
    its configuration it keeps two records of what it did: [produced], the
    datagrams its formatter built, oldest first, and [deallocated], the
    owned frames handed to the deallocation hook. *)
Record t : Type := mk {
  fmt : rtp_format_t;
  mtu : nat;
  ceiling : nat;
  dealloc_hook : fnptr;
  running : bool;
  produced : list frame.rtp_packet;
  deallocated : list (list Byte.byte)
}.

(** [new kvz_rtp::sender(socket_, ctx_config_, fmt_, rtp_)]; the socket,
    the context configuration and the session state stay with the stream,
    which passes the socket and the session state to each call. *)
Definition new (f : rtp_format_t) (m : nat) : t :=
  {| fmt := f; mtu := m; ceiling := formats.DEFAULT_CEILING;
     dealloc_hook := nullptr;
     running := false; produced := []; deallocated := [] |}.

(** Modelled from the spec: [sender_->init()] starts the send path. *)
Definition init (s : t) : t :=
  {| fmt := fmt s; mtu := mtu s; ceiling := ceiling s; dealloc_hook := dealloc_hook s;
     running := true; produced := produced s; deallocated := deallocated s |}.

(** Modelled from the spec: [install_dealloc_hook(hook)] registers the
    single callback. *)
Definition install_dealloc_hook (hook : fnptr) (s : t) : t :=
  {| fmt := fmt s; mtu := mtu s; ceiling := ceiling s; dealloc_hook := hook;
     running := running s; produced := produced s; deallocated := deallocated s |}.

(** Modelled from the spec: each produced datagram is handed to the
    socket; the first failure stops the frame with [RTP_SEND_ERROR]. *)
Fixpoint send_all (pkts : list frame.rtp_packet) (sock : socket.t) : rtp_error_t * socket.t :=
  match pkts with
  | [] => (RTP_OK, sock)
  | pkt :: rest =>
      let '(ret, sock') := socket.send pkt sock in
      if decide (ret = RTP_OK) then send_all rest sock' else (RTP_SEND_ERROR, sock')
  end.

Section push.

(** Which bits of [flags] ask [push_frame] to leave the timestamp to the
    caller is fixed in util.hh. *)
Variable ts_override : Z -> bool.

(** Modelled from the spec: [sender::push_frame] is missing.  [data] is
    the frame ([None] for a null pointer, its length is [data_len]);
    [owned] tells the overload that takes ownership.  The frame goes
    through the formatter of the payload format, every datagram to the
    socket; the timestamp then advances by the per-frame increment
    unless the caller overrides it, and an owned frame that has left the
    socket goes to the deallocation hook. *)
Definition push_frame (owned : bool) (data : option (list Byte.byte)) (flags : Z)
    (s : t) (r : rtp.t) (sock : socket.t) : rtp_error_t * t * rtp.t * socket.t :=
  match data with
  | None => (RTP_INVALID_VALUE, s, r, sock)
  | Some [] => (RTP_INVALID_VALUE, s, r, sock)
  | Some B =>
      match formats.format (fmt s) (mtu s) (ceiling s) B with
      | None => (RTP_PAYLOAD_TOO_BIG, s, r, sock)
      | Some items =>
          let '(pkts, r1) := formats.packetize items r in
          let '(ret, sock') := send_all pkts sock in
          let r2 := if ts_override flags then r1 else rtp.inc_ts r1 in
          let freed :=
            if owned && negb (is_null (dealloc_hook s)) && bool_decide (ret = RTP_OK)
            then [B] else [] in
          (ret,
           {| fmt := fmt s; mtu := mtu s; ceiling := ceiling s;
              dealloc_hook := dealloc_hook s; running := running s;
              produced := produced s ++ pkts;
              deallocated := deallocated s ++ freed |},
           r2, sock')
      end
  end.

End push.

End sender.

(** ** The receiver (receiver.hh) *)

Module receiver.

(** Modelled from the spec: class [kvz_rtp::receiver] is missing.  It holds
    the depacketizer, the bounded ring of frames waiting for a pull, the
    receive hook with its argument ([nullptr] while none is installed) and
    [hook_calls], the record of the hook's invocations, oldest first. *)
Record t : Type := mk {
  fmt : rtp_format_t;
  dp : formats.depacketizer;
  ring : list frame.rtp_frame;
  capacity : nat;
  dropped : Z;
  recv_hook_arg : voidp;
  recv_hook : fnptr;
  active : bool;
  hook_calls : list (voidp * fnptr * frame.rtp_frame)
}.

(** [new kvz_rtp::receiver(socket_, ctx_config_, fmt_, rtp_)]; [cap] is the
    bound of the ring. *)
Definition new (f : rtp_format_t) (cap : nat) : t :=
  {| fmt := f; dp := formats.depacketizer_new; ring := [];
     capacity := cap; dropped := 0; recv_hook_arg := nullptr;
     recv_hook := nullptr; active := false; hook_calls := [] |}.

(** Modelled from the spec: [receiver_->start()] starts the receive path. *)
Definition start (r : t) : t :=
  {| fmt := fmt r; dp := dp r; ring := ring r; capacity := capacity r;
     dropped := dropped r; recv_hook_arg := recv_hook_arg r; recv_hook := recv_hook r;
     active := true; hook_calls := hook_calls r |}.

(** Modelled from the spec: [install_recv_hook(context, hook)] registers
    the callback. *)
Definition install_recv_hook (arg : voidp) (hook : fnptr) (r : t) : t :=
  {| fmt := fmt r; dp := dp r; ring := ring r; capacity := capacity r;
     dropped := dropped r; recv_hook_arg := arg; recv_hook := hook;
     active := active r; hook_calls := hook_calls r |}.

(** What a pull gives: a frame, [nullptr], or no answer yet (the call
    blocks until a frame is reassembled or the receiver shuts down). *)
Inductive pulled : Type :=
  | Frame (f : frame.rtp_frame)
  | Null
  | Blocks.

(** Modelled from the spec: [receiver::pull_frame] is missing.  Once a hook
    is installed it returns null immediately; after shutdown it returns
    null; otherwise it takes the next frame of the ring or blocks. *)
Definition pull_frame (r : t) : pulled * t :=
  if negb (is_null (recv_hook r)) then (Null, r)
  else if negb (active r) then (Null, r)
  else match ring r with
       | [] => (Blocks, r)
       | f :: rest =>
           (Frame f,
            {| fmt := fmt r; dp := dp r; ring := rest;
               capacity := capacity r; dropped := dropped r;
               recv_hook_arg := recv_hook_arg r; recv_hook := recv_hook r;
               active := active r; hook_calls := hook_calls r |})
       end.

(** Modelled from the spec: a completed frame is dispatched to the hook
    when one is installed; otherwise it is enqueued to the ring, and a full
    ring drops its oldest frame and counts it. *)
Definition deliver (f : frame.rtp_frame) (r : t) : t :=
  if negb (is_null (recv_hook r))
  then {| fmt := fmt r; dp := dp r; ring := ring r;
          capacity := capacity r; dropped := dropped r;
          recv_hook_arg := recv_hook_arg r; recv_hook := recv_hook r; active := active r;
          hook_calls := hook_calls r ++ [(recv_hook_arg r, recv_hook r, f)] |}
  else if (capacity r <=? length (ring r))%nat
  then {| fmt := fmt r; dp := dp r; ring := tail (ring r) ++ [f];
          capacity := capacity r; dropped := dropped r + 1;
          recv_hook_arg := recv_hook_arg r; recv_hook := recv_hook r; active := active r;
          hook_calls := hook_calls r |}
  else {| fmt := fmt r; dp := dp r; ring := ring r ++ [f];
          capacity := capacity r; dropped := dropped r;
          recv_hook_arg := recv_hook_arg r; recv_hook := recv_hook r; active := active r;
          hook_calls := hook_calls r |}.


Definition set_dp (d : formats.depacketizer) (r : t) : t :=
  {| fmt := fmt r; dp := d; ring := ring r; capacity := capacity r;
     dropped := dropped r; recv_hook_arg := recv_hook_arg r; recv_hook := recv_hook r;
     active := active r; hook_calls := hook_calls r |}.

(** Modelled from the spec: the receive path for one datagram.  It feeds
    the depacketizer and delivers every frame the datagram completes.  The
    frames are returned as well, for the statements about them. *)
Definition receive (pkt : frame.rtp_packet) (r : t) : list frame.rtp_frame * t :=
  let '(out, d) := formats.depacketize pkt (dp r) in
  (out, foldl (fun acc f => deliver f acc) (set_dp d r) out).

End receiver.

(** ** The media stream (media_stream.cc) *)

Module media_stream.

(** The members of the class.  [rtp_], [sender_] and [receiver_] are
    pointers that only [init] assigns; the constructor does not mention
    them, so they are [indeterminate] before. *)
Record t : Type := mk {
  socket_ : socket.t;
  ctx_config_ : rtp_ctx_conf;
  media_config_ : voidp;
  fmt_ : rtp_format_t;
  addr_ : string;
  flags_ : Z;
  src_port_ : Z;
  dst_port_ : Z;
  addr_out_ : option socket.sockaddr_in;
  rtp_ : option rtp.t;
  sender_ : option sender.t;
  receiver_ : option receiver.t
}.

Definition set_socket (s : socket.t) (ms : t) : t :=
  {| socket_ := s; ctx_config_ := ctx_config_ ms; media_config_ := media_config_ ms;
     fmt_ := fmt_ ms; addr_ := addr_ ms; flags_ := flags_ ms; src_port_ := src_port_ ms;
     dst_port_ := dst_port_ ms; addr_out_ := addr_out_ ms; rtp_ := rtp_ ms;
     sender_ := sender_ ms; receiver_ := receiver_ ms |}.

Definition set_addr_out (sa : socket.sockaddr_in) (ms : t) : t :=
  {| socket_ := socket_ ms; ctx_config_ := ctx_config_ ms; media_config_ := media_config_ ms;
     fmt_ := fmt_ ms; addr_ := addr_ ms; flags_ := flags_ ms; src_port_ := src_port_ ms;
     dst_port_ := dst_port_ ms; addr_out_ := Some sa; rtp_ := rtp_ ms;
     sender_ := sender_ ms; receiver_ := receiver_ ms |}.

Definition set_ctx_config (c : rtp_ctx_conf) (ms : t) : t :=
  {| socket_ := socket_ ms; ctx_config_ := c; media_config_ := media_config_ ms;
     fmt_ := fmt_ ms; addr_ := addr_ ms; flags_ := flags_ ms; src_port_ := src_port_ ms;
     dst_port_ := dst_port_ ms; addr_out_ := addr_out_ ms; rtp_ := rtp_ ms;
     sender_ := sender_ ms; receiver_ := receiver_ ms |}.

Definition set_workers (r : rtp.t) (s : sender.t) (rc : receiver.t) (ms : t) : t :=
  {| socket_ := socket_ ms; ctx_config_ := ctx_config_ ms; media_config_ := media_config_ ms;
     fmt_ := fmt_ ms; addr_ := addr_ ms; flags_ := flags_ ms; src_port_ := src_port_ ms;
     dst_port_ := dst_port_ ms; addr_out_ := addr_out_ ms; rtp_ := Some r;
     sender_ := Some s; receiver_ := Some rc |}.

Definition set_sender (s : sender.t) (ms : t) : t :=
  {| socket_ := socket_ ms; ctx_config_ := ctx_config_ ms; media_config_ := media_config_ ms;
     fmt_ := fmt_ ms; addr_ := addr_ ms; flags_ := flags_ ms; src_port_ := src_port_ ms;
     dst_port_ := dst_port_ ms; addr_out_ := addr_out_ ms; rtp_ := rtp_ ms;
     sender_ := Some s; receiver_ := receiver_ ms |}.

Definition set_receiver (rc : receiver.t) (ms : t) : t :=
  {| socket_ := socket_ ms; ctx_config_ := ctx_config_ ms; media_config_ := media_config_ ms;
     fmt_ := fmt_ ms; addr_ := addr_ ms; flags_ := flags_ ms; src_port_ := src_port_ ms;
     dst_port_ := dst_port_ ms; addr_out_ := addr_out_ ms; rtp_ := rtp_ ms;
     sender_ := sender_ ms; receiver_ := Some rc |}.

Definition set_rtp (r : rtp.t) (ms : t) : t :=
  {| socket_ := socket_ ms; ctx_config_ := ctx_config_ ms; media_config_ := media_config_ ms;
     fmt_ := fmt_ ms; addr_ := addr_ ms; flags_ := flags_ ms; src_port_ := src_port_ ms;
     dst_port_ := dst_port_ ms; addr_out_ := addr_out_ ms; rtp_ := Some r;
     sender_ := sender_ ms; receiver_ := receiver_ ms |}.

(** What happens to a stream in operation: a call of the application, or a
    datagram from the network. *)
Inductive op : Type :=
  | PushFrame (data : option (list Byte.byte)) (flags : Z)
  | PushFrameOwned (data : option (list Byte.byte)) (flags : Z)
  | PullFrame
  | InstallReceiveHook (arg : voidp) (hook : fnptr)
  | InstallDeallocationHook (hook : fnptr)
  | SetMediaConfig (config : voidp)
  | ConfigureCtx2 (flag value : Z)
  | ConfigureCtx1 (flag : Z)
  | Datagram (pkt : frame.rtp_packet).

(** The stream is set up: [init] has assigned the three pointers. *)
Definition ready (ms : t) : Prop :=
  is_Some (rtp_ ms) /\ is_Some (sender_ ms) /\ is_Some (receiver_ ms).

(** The datagrams the stream's sender has produced so far. *)
Definition produced (ms : t) : list frame.rtp_packet :=
  match sender_ ms with Some s => sender.produced s | None => [] end.

(** The receive hook's invocations so far, and the frames they passed. *)
Definition hook_calls (ms : t) : list (voidp * fnptr * frame.rtp_frame) :=
  match receiver_ ms with Some rc => receiver.hook_calls rc | None => [] end.


(** The datagrams a packet capture at the stream's socket shows. *)
Definition captured (ms : t) : list frame.rtp_packet := socket.sent (socket.calls (socket_ ms)).

(** A call that reports no frame and no pull. *)
Definition quiet {A : Type} (res : option (A * t))
    : option (list receiver.pulled * list frame.rtp_frame * t) :=
  match res with
  | Some (_, ms') => Some ([], [], ms')
  | None => None
  end.

Section util.

(** What the missing headers fix: the bounds of the two flag enumerations,
    which [push_frame] flags keep the timestamp, the payload type and the
    per-frame timestamp increment of each format, the MTU, and the bound
    of the receiver's ring. *)
Variables RCC_LAST RCE_LAST : Z.
Variable ts_override : Z -> bool.
Variables payload_type_of ts_increment_of : rtp_format_t -> Z.
Variable mtu : nat.
Variable max_queued_frames : nat.

(** The constructor: [socket_()], [ctx_config_()] (no flag set, every
    value 0) and [media_config_(nullptr)] in the initialiser list, the
    five assignments in the body.  [rtp_], [sender_] and [receiver_] are
    in neither: they are left uninitialised.  [os] is the system behind
    the socket. *)
Definition new (os : list socket.call -> socket.call -> rtp_error_t)
    (addr : string) (src_port dst_port : Z) (fmt : rtp_format_t) (flags : Z) : t :=
  {| socket_ := socket.new os;
     ctx_config_ := {| flags := 0; ctx_values := replicate (Z.to_nat RCC_LAST) 0 |};
     media_config_ := nullptr;
     fmt_ := fmt;
     addr_ := addr;
     flags_ := flags;
     src_port_ := src_port;
     dst_port_ := dst_port;
     addr_out_ := None;
     rtp_ := indeterminate;
     sender_ := indeterminate;
     receiver_ := indeterminate |}.

(** [init_connection]: socket, bind, remote address.  The block between
    [#if 0] and [#endif], which would call [socket.setsockopt] with
    [SO_REUSEADDR], is not compiled. *)
Definition init_connection (ms : t) : rtp_error_t * t :=
  let '(ret, s1) := socket.init socket.AF_INET socket.SOCK_DGRAM 0 (socket_ ms) in
  if decide (ret ≠ RTP_OK) then (ret, set_socket s1 ms)
  else
    let '(ret, s2) := socket.bind socket.AF_INET socket.INADDR_ANY (src_port_ ms) s1 in
    if decide (ret ≠ RTP_OK) then (ret, set_socket s2 ms)
    else
      let addr_out := socket.create_sockaddr socket.AF_INET (addr_ ms) (dst_port_ ms) in
      (ret, set_addr_out addr_out (set_socket (socket.set_sockaddr addr_out s2) ms)).

(** [init]; [rnd] is what [new kvz_rtp::rtp(fmt_)] draws. *)
Definition init (rnd : Z * Z * Z) (ms : t) : rtp_error_t * t :=
  let '(ret, ms1) := init_connection ms in
  if decide (ret ≠ RTP_OK) then (RTP_GENERIC_ERROR, ms1)
  else
    let r := rtp.new (payload_type_of (fmt_ ms1)) (ts_increment_of (fmt_ ms1)) rnd in
    let s := sender.new (fmt_ ms1) mtu in
    let rc := receiver.new (fmt_ ms1) max_queued_frames in
    (RTP_OK, set_workers r (sender.init s) (receiver.start rc) ms1).

(** The two [push_frame] overloads forward to the sender; on a stream
    whose pointers [init] has not assigned the call has undefined
    behaviour: [None]. *)
Definition push_frame_with (owned : bool) (data : option (list Byte.byte)) (flags : Z)
    (ms : t) : option (rtp_error_t * t) :=
  match sender_ ms, rtp_ ms with
  | Some s, Some r =>
      let '(ret, s', r', sock') :=
        sender.push_frame ts_override owned data flags s r (socket_ ms) in
      Some (ret, set_rtp r' (set_sender s' (set_socket sock' ms)))
  | _, _ => None
  end.

(** [push_frame(uint8_t *data, size_t data_len, int flags)]. *)
Definition push_frame (data : option (list Byte.byte)) (flags : Z) (ms : t)
    : option (rtp_error_t * t) :=
  push_frame_with false data flags ms.

(** [push_frame(std::unique_ptr<uint8_t[]> data, size_t data_len, int flags)]. *)
Definition push_frame_owned (data : option (list Byte.byte)) (flags : Z) (ms : t)
    : option (rtp_error_t * t) :=
  push_frame_with true data flags ms.

(** [pull_frame] forwards to the receiver. *)
Definition pull_frame (ms : t) : option (receiver.pulled * t) :=
  match receiver_ ms with
  | Some rc =>
      let '(f, rc') := receiver.pull_frame rc in
      Some (f, set_receiver rc' ms)
  | None => None
  end.

(** [install_receive_hook]: the null check comes before the receiver is
    touched. *)
Definition install_receive_hook (arg : voidp) (hook : fnptr) (ms : t)
    : option (rtp_error_t * t) :=
  if is_null hook then Some (RTP_INVALID_VALUE, ms)
  else
    match receiver_ ms with
    | Some rc => Some (RTP_OK, set_receiver (receiver.install_recv_hook arg hook rc) ms)
    | None => None
    end.

(** [install_deallocation_hook]. *)
Definition install_deallocation_hook (hook : fnptr) (ms : t) : option (rtp_error_t * t) :=
  if is_null hook then Some (RTP_INVALID_VALUE, ms)
  else
    match sender_ ms with
    | Some s => Some (RTP_OK, set_sender (sender.install_dealloc_hook hook s) ms)
    | None => None
    end.

Definition set_media_config (config : voidp) (ms : t) : t :=
  {| socket_ := socket_ ms; ctx_config_ := ctx_config_ ms; media_config_ := config;
     fmt_ := fmt_ ms; addr_ := addr_ ms; flags_ := flags_ ms; src_port_ := src_port_ ms;
     dst_port_ := dst_port_ ms; addr_out_ := addr_out_ ms; rtp_ := rtp_ ms;
     sender_ := sender_ ms; receiver_ := receiver_ ms |}.

Definition get_media_config (ms : t) : voidp := media_config_ ms.

(** [configure_ctx(int flag, ssize_t value)]:
    [ctx_config_.ctx_values[flag] = value] behind the range check. *)
Definition configure_ctx2 (flag value : Z) (ms : t) : rtp_error_t * t :=
  if (flag <? 0) || (RCC_LAST <=? flag) || (value <? 0) then (RTP_INVALID_VALUE, ms)
  else
    (RTP_OK,
     set_ctx_config
       {| flags := flags (ctx_config_ ms);
          ctx_values := <[Z.to_nat flag := value]> (ctx_values (ctx_config_ ms)) |} ms).

(** [configure_ctx(int flag)]: [ctx_config_.flags |= flag] behind the
    range check. *)
Definition configure_ctx1 (flag : Z) (ms : t) : rtp_error_t * t :=
  if (flag <? 0) || (RCE_LAST <=? flag) then (RTP_INVALID_VALUE, ms)
  else
    (RTP_OK,
     set_ctx_config
       {| flags := Z.lor (flags (ctx_config_ ms)) flag;
          ctx_values := ctx_values (ctx_config_ ms) |} ms).

(** Modelled from the spec: a datagram arrives from the network, and the
    receive path of the stream's receiver takes it. *)
Definition on_datagram (pkt : frame.rtp_packet) (ms : t) : option (list frame.rtp_frame * t) :=
  match receiver_ ms with
  | Some rc =>
      let '(out, rc') := receiver.receive pkt rc in
      Some (out, set_receiver rc' ms)
  | None => None
  end.

(** One operation: what the pulls returned, the frames that were
    reassembled, the stream afterwards. *)
Definition step (o : op) (ms : t)
    : option (list receiver.pulled * list frame.rtp_frame * t) :=
  match o with
  | PushFrame data flags => quiet (push_frame data flags ms)
  | PushFrameOwned data flags => quiet (push_frame_owned data flags ms)
  | PullFrame =>
      match pull_frame ms with
      | Some (p, ms') => Some ([p], [], ms')
      | None => None
      end
  | InstallReceiveHook arg hook => quiet (install_receive_hook arg hook ms)
  | InstallDeallocationHook hook => quiet (install_deallocation_hook hook ms)
  | SetMediaConfig config => Some ([], [], set_media_config config ms)
  | ConfigureCtx2 flag value => quiet (Some (configure_ctx2 flag value ms))
  | ConfigureCtx1 flag => quiet (Some (configure_ctx1 flag ms))
  | Datagram pkt =>
      match on_datagram pkt ms with
      | Some (fs, ms') => Some ([], fs, ms')
      | None => None
      end
  end.

(** A sequence of operations, in order. *)
Fixpoint run (ops : list op) (ms : t)
    : option (list receiver.pulled * list frame.rtp_frame * t) :=
  match ops with
  | [] => Some ([], [], ms)
  | o :: rest =>
      match step o ms with
      | None => None
      | Some (ps, fs, ms1) =>
          match run rest ms1 with
          | None => None
          | Some (ps', fs', ms2) => Some (ps ++ ps', fs ++ fs', ms2)
          end
      end
  end.

End util.

End media_stream.

(** ** The RTCP session (rtcp.hh) *)

Module rtcp.

(** [struct statistics]; the counters are [size_t]. *)
Record statistics : Type := mk_statistics {
  processed_bytes : Z;
  overhead_bytes : Z;
  total_bytes : Z;
  processed_pkts : Z;
  dropped_pkts : Z
}.

Definition SIZE_MOD : Z := 18446744073709551616.

Definition no_statistics : statistics :=
  {| processed_bytes := 0; overhead_bytes := 0; total_bytes := 0;
     processed_pkts := 0; dropped_pkts := 0 |}.

(** [std::thread *runner_] once it is allocated. *)
Inductive thread : Set :=
  | Running
  | Joined.

(** What the session has done, for the statements about it: an RTCP
    packet it built and sent, or RTP data the local sender reported. *)
Inductive event : Type :=
  | Emitted (f : frame.rtcp_frame)
  | DataSent (n : Z).

(** The members of the class, in the order of the header, and [history],
    the record of events, newest first.

    Modelled from the spec: the header declares [tp_], [tc_] and [tn_] as
    [size_t] under the comment "TODO: time_t??" and names no unit; no code
    of this tree computes with them.  The schedule of the specification is
    in seconds and has fractions of a second (a [T_min] of 2.5 s), so the
    three times are seconds here, as rationals. *)
Record t : Type := mk {
  runner_ : option thread;
  cname_ : string;
  receiver_ : bool;
  tp_ : Q;
  tc_ : Q;
  tn_ : Q;
  pmembers_ : Z;
  members_ : Z;
  senders_ : Z;
  rtcp_bandwidth_ : Z;
  we_sent_ : bool;
  avg_rtcp_pkt_pize_ : Z;
  initial_ : bool;
  active_ : bool;
  send_addr_ : string;
  send_port_ : Z;
  recv_port_ : Z;
  socket_ : socket.t;
  participant_ : list Z;
  sender_stats_ : statistics;
  receiver_stats_ : list (Z * statistics);
  num_receivers_ : Z;
  history : list event
}.

(** Modelled from the spec: the constructors are missing.  The role comes
    from the argument; the schedule starts as in RFC 3550, whose state
    variables the class names: no time has passed, the session has one
    member, nothing was sent, [initial_] is set; the connection is open. *)
Definition new (os : list socket.call -> socket.call -> rtp_error_t)
    (dst_addr : string) (dst_port src_port : Z) (receiver : bool) : t :=
  {| runner_ := None; cname_ := ""; receiver_ := receiver;
     tp_ := 0; tc_ := 0; tn_ := 0;
     pmembers_ := 1; members_ := 1; senders_ := 0;
     rtcp_bandwidth_ := 0; we_sent_ := false; avg_rtcp_pkt_pize_ := 0;
     initial_ := true; active_ := true;
     send_addr_ := dst_addr; send_port_ := dst_port; recv_port_ := src_port;
     socket_ := socket.new os; participant_ := [];
     sender_stats_ := no_statistics; receiver_stats_ := []; num_receivers_ := 0;
     history := [] |}.

Definition active (s : t) : bool := active_ s.

(** "return true if this RTCP instance belongs to an RTP receiver and a
    receiver report should be generated, otherwise sender report is
    generated". *)
Definition receiver (s : t) : bool := receiver_ s.

Definition set_schedule (tp tc tn : Q) (init : bool) (s : t) : t :=
  {| runner_ := runner_ s; cname_ := cname_ s; receiver_ := receiver_ s;
     tp_ := tp; tc_ := tc; tn_ := tn;
     pmembers_ := pmembers_ s; members_ := members_ s; senders_ := senders_ s;
     rtcp_bandwidth_ := rtcp_bandwidth_ s; we_sent_ := we_sent_ s;
     avg_rtcp_pkt_pize_ := avg_rtcp_pkt_pize_ s;
     initial_ := init; active_ := active_ s;
     send_addr_ := send_addr_ s; send_port_ := send_port_ s; recv_port_ := recv_port_ s;
     socket_ := socket_ s; participant_ := participant_ s;
     sender_stats_ := sender_stats_ s; receiver_stats_ := receiver_stats_ s;
     num_receivers_ := num_receivers_ s; history := history s |}.

Definition set_lifecycle (th : option thread) (act : bool) (s : t) : t :=
  {| runner_ := th; cname_ := cname_ s; receiver_ := receiver_ s;
     tp_ := tp_ s; tc_ := tc_ s; tn_ := tn_ s;
     pmembers_ := pmembers_ s; members_ := members_ s; senders_ := senders_ s;
     rtcp_bandwidth_ := rtcp_bandwidth_ s; we_sent_ := we_sent_ s;
     avg_rtcp_pkt_pize_ := avg_rtcp_pkt_pize_ s;
     initial_ := initial_ s; active_ := act;
     send_addr_ := send_addr_ s; send_port_ := send_port_ s; recv_port_ := recv_port_ s;
     socket_ := socket_ s; participant_ := participant_ s;
     sender_stats_ := sender_stats_ s; receiver_stats_ := receiver_stats_ s;
     num_receivers_ := num_receivers_ s; history := history s |}.

Definition set_output (sock : socket.t) (h : list event) (s : t) : t :=
  {| runner_ := runner_ s; cname_ := cname_ s; receiver_ := receiver_ s;
     tp_ := tp_ s; tc_ := tc_ s; tn_ := tn_ s;
     pmembers_ := pmembers_ s; members_ := members_ s; senders_ := senders_ s;
     rtcp_bandwidth_ := rtcp_bandwidth_ s; we_sent_ := we_sent_ s;
     avg_rtcp_pkt_pize_ := avg_rtcp_pkt_pize_ s;
     initial_ := initial_ s; active_ := active_ s;
     send_addr_ := send_addr_ s; send_port_ := send_port_ s; recv_port_ := recv_port_ s;
     socket_ := sock; participant_ := participant_ s;
     sender_stats_ := sender_stats_ s; receiver_stats_ := receiver_stats_ s;
     num_receivers_ := num_receivers_ s; history := h |}.

Definition set_participant (ps : list Z) (s : t) : t :=
  {| runner_ := runner_ s; cname_ := cname_ s; receiver_ := receiver_ s;
     tp_ := tp_ s; tc_ := tc_ s; tn_ := tn_ s;
     pmembers_ := pmembers_ s; members_ := members_ s; senders_ := senders_ s;
     rtcp_bandwidth_ := rtcp_bandwidth_ s; we_sent_ := we_sent_ s;
     avg_rtcp_pkt_pize_ := avg_rtcp_pkt_pize_ s;
     initial_ := initial_ s; active_ := active_ s;
     send_addr_ := send_addr_ s; send_port_ := send_port_ s; recv_port_ := recv_port_ s;
     socket_ := socket_ s; participant_ := ps;
     sender_stats_ := sender_stats_ s; receiver_stats_ := receiver_stats_ s;
     num_receivers_ := num_receivers_ s; history := history s |}.

Definition set_sender_stats (st : statistics) (sent : bool) (h : list event) (s : t) : t :=
  {| runner_ := runner_ s; cname_ := cname_ s; receiver_ := receiver_ s;
     tp_ := tp_ s; tc_ := tc_ s; tn_ := tn_ s;
     pmembers_ := pmembers_ s; members_ := members_ s; senders_ := senders_ s;
     rtcp_bandwidth_ := rtcp_bandwidth_ s; we_sent_ := sent;
     avg_rtcp_pkt_pize_ := avg_rtcp_pkt_pize_ s;
     initial_ := initial_ s; active_ := active_ s;
     send_addr_ := send_addr_ s; send_port_ := send_port_ s; recv_port_ := recv_port_ s;
     socket_ := socket_ s; participant_ := participant_ s;
     sender_stats_ := st; receiver_stats_ := receiver_stats_ s;
     num_receivers_ := num_receivers_ s; history := h |}.

Definition set_membership (members senders : Z) (rs : list (Z * statistics)) (nr : Z)
    (s : t) : t :=
  {| runner_ := runner_ s; cname_ := cname_ s; receiver_ := receiver_ s;
     tp_ := tp_ s; tc_ := tc_ s; tn_ := tn_ s;
     pmembers_ := pmembers_ s; members_ := members; senders_ := senders;
     rtcp_bandwidth_ := rtcp_bandwidth_ s; we_sent_ := we_sent_ s;
     avg_rtcp_pkt_pize_ := avg_rtcp_pkt_pize_ s;
     initial_ := initial_ s; active_ := active_ s;
     send_addr_ := send_addr_ s; send_port_ := send_port_ s; recv_port_ := recv_port_ s;
     socket_ := socket_ s; participant_ := participant_ s;
     sender_stats_ := sender_stats_ s; receiver_stats_ := rs;
     num_receivers_ := nr; history := history s |}.

Definition set_estimates (bandwidth avg_size pmembers : Z) (s : t) : t :=
  {| runner_ := runner_ s; cname_ := cname_ s; receiver_ := receiver_ s;
     tp_ := tp_ s; tc_ := tc_ s; tn_ := tn_ s;
     pmembers_ := pmembers; members_ := members_ s; senders_ := senders_ s;
     rtcp_bandwidth_ := bandwidth; we_sent_ := we_sent_ s;
     avg_rtcp_pkt_pize_ := avg_size;
     initial_ := initial_ s; active_ := active_ s;
     send_addr_ := send_addr_ s; send_port_ := send_port_ s; recv_port_ := recv_port_ s;
     socket_ := socket_ s; participant_ := participant_ s;
     sender_stats_ := sender_stats_ s; receiver_stats_ := receiver_stats_ s;
     num_receivers_ := num_receivers_ s; history := history s |}.

(** *** Statistics and membership *)

(** Modelled from the spec: [sender_inc_processed_pkts(n)]; the data path
    reports [n] RTP packets sent. *)
Definition sender_inc_processed_pkts (n : Z) (s : t) : t :=
  let st := sender_stats_ s in
  set_sender_stats
    {| processed_bytes := processed_bytes st; overhead_bytes := overhead_bytes st;
       total_bytes := total_bytes st;
       processed_pkts := (processed_pkts st + n) mod SIZE_MOD;
       dropped_pkts := dropped_pkts st |}
    (we_sent_ s || (0 <? n)) (DataSent n :: history s) s.

(** Modelled from the spec: [sender_inc_processed_bytes(n)] adds to the
    octet count of the sender statistics. *)
Definition sender_inc_processed_bytes (n : Z) (s : t) : t :=
  let st := sender_stats_ s in
  set_sender_stats
    {| processed_bytes := (processed_bytes st + n) mod SIZE_MOD;
       overhead_bytes := overhead_bytes st; total_bytes := total_bytes st;
       processed_pkts := processed_pkts st; dropped_pkts := dropped_pkts st |}
    (we_sent_ s) (history s) s.

(** Modelled from the spec: [add_participant(conn)] appends to the
    participant table. *)
Definition add_participant (conn : Z) (s : t) : rtp_error_t * t :=
  (RTP_OK, set_participant (participant_ s ++ [conn]) s).

Fixpoint known (ssrc : Z) (rs : list (Z * statistics)) : bool :=
  match rs with
  | [] => false
  | (k, _) :: rs' => (k =? ssrc) || known ssrc rs'
  end.

(** Modelled from the spec: [check_sender(ssrc)] gives an unknown SSRC a
    statistics block and bumps [members_] and [senders_]. *)
Definition check_sender (ssrc : Z) (s : t) : t :=
  if known ssrc (receiver_stats_ s) then s
  else set_membership ((members_ s + 1) mod SIZE_MOD) ((senders_ s + 1) mod SIZE_MOD)
         ((ssrc, no_statistics) :: receiver_stats_ s)
         ((num_receivers_ s + 1) mod SIZE_MOD) s.

(** Modelled from the spec: [handle_bye_packet]; an incoming BYE decrements
    [members_] and removes the statistics block of its SSRC. *)
Definition handle_bye_packet (ssrc : Z) (s : t) : rtp_error_t * t :=
  (RTP_OK,
   set_membership ((members_ s - 1) mod SIZE_MOD) (senders_ s)
     (filter (fun kv => fst kv ≠ ssrc) (receiver_stats_ s))
     (num_receivers_ s) s).

(** *** Sending *)

(** Modelled from the spec: the [send_*_packet] routines are missing.  One
    RTCP packet goes to every participant in turn; the result is
    [RTP_SEND_ERROR] when a send failed. *)
Fixpoint send_to_all (f : frame.rtcp_frame) (ps : list Z) (sock : socket.t)
    : rtp_error_t * socket.t :=
  match ps with
  | [] => (RTP_OK, sock)
  | p :: ps' =>
      let '(ret, sock1) := socket.sendto p f sock in
      let '(ret', sock2) := send_to_all f ps' sock1 in
      (if decide (ret = RTP_OK) then ret' else RTP_SEND_ERROR, sock2)
  end.

(** The packet is sent and entered in the history. *)
Definition emit (f : frame.rtcp_frame) (s : t) : rtp_error_t * t :=
  let '(ret, sock) := send_to_all f (participant_ s) (socket_ s) in
  (ret, set_output sock (Emitted f :: history s) s).

Definition send_bye_packet (s : t) : rtp_error_t * t := emit frame.rtcp_bye_frame s.

(** Modelled from the spec: [generate_sender_report] is missing.  The
    report carries the sender's packet and octet counts. *)
Definition generate_sender_report (s : t) : rtp_error_t * t :=
  emit (frame.rtcp_sender_frame (processed_pkts (sender_stats_ s))
                                (processed_bytes (sender_stats_ s))) s.

(** Modelled from the spec: [generate_receiver_report] is missing. *)
Definition generate_receiver_report (s : t) : rtp_error_t * t :=
  emit frame.rtcp_receiver_frame s.

(** Whether the local side has sent RTP data since the previous report,
    read off the history (newest first). *)
Fixpoint sent_since_report (h : list event) : bool :=
  match h with
  | [] => false
  | DataSent n :: h' => (0 <? n) || sent_since_report h'
  | Emitted f :: h' =>
      if frame.is_sender_report f || frame.is_receiver_report f then false
      else sent_since_report h'
  end.

(** Modelled from the spec: [generate_report] is declared without a body
    ("Generate either RTCP Sender or Receiver report and sent it to all
    participants").  Which of the two is as the specification has it: a
    Sender Report if the local side sent data since the previous report, a
    Receiver Report otherwise. *)
Definition generate_report (s : t) : rtp_error_t * t :=
  if sent_since_report (history s) then generate_sender_report s
  else generate_receiver_report s.

(** The RTCP packets built so far that are BYEs. *)
Fixpoint bye_count (h : list event) : nat :=
  match h with
  | [] => O
  | Emitted f :: h' => ((if frame.is_bye f then 1 else 0) + bye_count h')%nat
  | DataSent _ :: h' => bye_count h'
  end.

(** *** The schedule *)

Definition Qmax (a b : Q) : Q := if Qle_bool a b then b else a.

(** Modelled from the spec: [T_min] is 5 s, 2.5 s while [initial_]. *)
Definition T_min (s : t) : Q := if initial_ s then 5 # 2 else 5 # 1.

(** Modelled from the spec: [n] is the senders when we sent and they are
    under a quarter of the members, the members otherwise. *)
Definition n_members (s : t) : Z :=
  if we_sent_ s && (4 * senders_ s <? members_ s) then senders_ s else members_ s.

(** Modelled from the spec: the deterministic interval
    [T = max(T_min, avg_rtcp_size * n / rtcp_bw)]. *)
Definition deterministic_interval (s : t) : Q :=
  Qmax (T_min s)
       (inject_Z (avg_rtcp_pkt_pize_ s * n_members s) / inject_Z (rtcp_bandwidth_ s)).

Definition COMPENSATION : Q := 121828 # 100000.

(** Modelled from the spec: the actual interval
    [T * rand(0.5,1.5) / 1.21828], where [r] is the draw.  The
    specification names it beside [T] and reschedules by [T]. *)
Definition interval (r : Q) (s : t) : Q := deterministic_interval s * r / COMPENSATION.

(** Modelled from the spec: "Reschedule to [tn = tp + T]", where [T] is
    the deterministic interval. *)
Definition reschedule (s : t) : t :=
  set_schedule (tp_ s) (tc_ s) (tp_ s + deterministic_interval s) (initial_ s) s.

(** Modelled from the spec: [start] has no body in this tree.  It
    allocates the runner thread ([RTP_MEMORY_ERROR] when that fails), and
    the runner schedules its first report. *)
Definition start (alloc_ok : bool) (s : t) : rtp_error_t * t :=
  if alloc_ok
  then (RTP_OK, reschedule (set_lifecycle (Some Running) (active_ s) s))
  else (RTP_MEMORY_ERROR, s).

(** Modelled from the spec: [rtcp_runner] has no body in this tree.  The
    runner sleeps until [tn_]; this is what it does when it wakes there,
    as long as the session is active: it emits the report, sets
    [tp = tn], clears [initial] and recomputes [tn]. *)
Definition runner_wakeup (s : t) : t :=
  if active s then
    let s1 := snd (generate_report (set_schedule (tp_ s) (tn_ s) (tn_ s) (initial_ s) s)) in
    reschedule (set_schedule (tn_ s1) (tc_ s1) (tn_ s1) false s1)
  else s.

(** Modelled from the spec: [terminate] has no body in this tree.  On an
    open connection it clears [active_], sends the BYE to all participants
    and joins the runner; the connection is closed after that, and a
    repeated call finds nothing to end. *)
Definition terminate (s : t) : rtp_error_t * t :=
  if active s then
    let '(ret, s1) := send_bye_packet (set_lifecycle (runner_ s) false s) in
    (ret, set_lifecycle (option_map (fun _ => Joined) (runner_ s1)) (active_ s1) s1)
  else (RTP_OK, s).



(** *** Runs of the session *)

(** What can happen to a session: the calls of the application and of the
    data path, the runner waking at [tn_], and the estimates of bandwidth,
    average packet size and previous membership taking new values (how
    they follow the traffic is left open). *)
Inductive op : Type :=
  | Start (alloc_ok : bool)
  | Terminate
  | Wakeup
  | GenerateReport
  | AddParticipant (conn : Z)
  | SenderIncPkts (n : Z)
  | SenderIncBytes (n : Z)
  | CheckSender (ssrc : Z)
  | HandleBye (ssrc : Z)
  | Estimates (bandwidth avg_size pmembers : Z).

Definition apply (o : op) (s : t) : t :=
  match o with
  | Start alloc_ok => snd (start alloc_ok s)
  | Terminate => snd (terminate s)
  | Wakeup => runner_wakeup s
  | GenerateReport => snd (generate_report s)
  | AddParticipant conn => snd (add_participant conn s)
  | SenderIncPkts n => sender_inc_processed_pkts n s
  | SenderIncBytes n => sender_inc_processed_bytes n s
  | CheckSender ssrc => check_sender ssrc s
  | HandleBye ssrc => snd (handle_bye_packet ssrc s)
  | Estimates bandwidth avg_size pmembers => set_estimates bandwidth avg_size pmembers s
  end.

Definition run (ops : list op) (s : t) : t := foldl (fun acc o => apply o acc) s ops.

Definition is_terminate (o : op) : bool :=
  match o with Terminate => true | _ => false end.

(** The operation reports RTP data sent by the local side. *)
Definition sends_data (o : op) : bool :=
  match o with SenderIncPkts n => 0 <? n | _ => false end.

(** The operation emits a report on session [s]: a call of
    [generate_report], or the runner waking while the session is active. *)
Definition emits_report (o : op) (s : t) : bool :=
  match o with
  | GenerateReport => true
  | Wakeup => active s
  | _ => false
  end.


End rtcp.

(** ** A stream and a session for the examples *)

(** A fragmenting stream to 192.0.2.1, set up on a system where every call
    succeeds; its first sequence number is 65535. *)
Definition sample_stream : media_stream.t :=
  snd (media_stream.init (fun _ => 96) (fun _ => 3000) 1500 16 (1, 65535, 3)
         (media_stream.new 4 socket.reliable "192.0.2.1" 5004 5006
            RTP_FORMAT_FRAGMENTING 0)).

(** An RTCP session to the same peer, constructed and not yet started. *)
Definition sample_session (receiver : bool) : rtcp.t :=
  rtcp.new socket.reliable "192.0.2.1" 5005 5004 receiver.

(** What a datagram shows of the fragmentation: the marker, the start and
    end flags (both unset on a whole unit) and the length of its chunk. *)
Definition fragment_view (p : frame.rtp_packet) : bool * bool * bool * nat :=
  match frame.body p with
  | frame.Whole payload => (frame.marker (frame.header p), false, false, length payload)
  | frame.Fragment fu chunk =>
      (frame.marker (frame.header p), frame.fu_start fu, frame.fu_end fu, length chunk)
  end.

(** The third and the fifth datagram change places. *)
Definition swap_third_and_fifth (l : list frame.rtp_packet) : list frame.rtp_packet :=
  match l with
  | a :: b :: c :: d :: e :: rest => a :: b :: e :: d :: c :: rest
  | _ => l
  end.

(** The second datagram arrives [n] datagrams late. *)
Definition delay_second (n : nat) (l : list frame.rtp_packet) : list frame.rtp_packet :=
  match l with
  | a :: b :: rest => a :: take n rest ++ [b] ++ drop n rest
  | _ => l
  end.

(** ** The calls of a client on a stream (media_stream.cc) *)

Module client.

(** A call of one of the public functions of media_stream.cc. *)
Inductive call : Type :=
  | Init (rnd : Z * Z * Z)
  | PushFrame (data : option (list Byte.byte)) (flags : Z)
  | PushFrameOwned (data : option (list Byte.byte)) (flags : Z)
  | PullFrame
  | InstallReceiveHook (arg : voidp) (hook : fnptr)
  | InstallDeallocationHook (hook : fnptr)
  | SetMediaConfig (config : voidp)
  | GetMediaConfig
  | ConfigureCtx2 (flag value : Z)
  | ConfigureCtx1 (flag : Z).

(** What a call returns: an error code, the result of a pull, a pointer, or
    nothing. *)
Inductive outcome : Type :=
  | Code (e : rtp_error_t)
  | Pulled (p : receiver.pulled)
  | Pointer (p : voidp)
  | Void.

(** The calls whose body dereferences [sender_] or [receiver_]: the pushes,
    the pull, and a hook installation past its null check. *)
Definition needs_workers (c : call) : bool :=
  match c with
  | PushFrame _ _ | PushFrameOwned _ _ | PullFrame => true
  | InstallReceiveHook _ hook => negb (is_null hook)
  | InstallDeallocationHook hook => negb (is_null hook)
  | _ => false
  end.

(** None of the three pointers has been assigned: the stream is as the
    constructor leaves it in this respect. *)
Definition unset (ms : media_stream.t) : Prop :=
  media_stream.rtp_ ms = indeterminate /\ media_stream.sender_ ms = indeterminate
  /\ media_stream.receiver_ ms = indeterminate.

(** The call is an [init] that returned [RTP_OK]. *)
Definition init_succeeded (co : call * outcome) : bool :=
  match co with
  | (Init _, Code RTP_OK) => true
  | _ => false
  end.

Definition sets_media_config (c : call) : bool :=
  match c with SetMediaConfig _ => true | _ => false end.

(** The range checks of the two [configure_ctx] overloads. *)
Definition accepted2 (RCC_LAST flag value : Z) : bool :=
  negb ((flag <? 0) || (RCC_LAST <=? flag) || (value <? 0)).

Definition accepted1 (RCE_LAST flag : Z) : bool :=
  negb ((flag <? 0) || (RCE_LAST <=? flag)).

(** The call stores a value in cell [flag] of [ctx_values]. *)
Definition writes_cell (RCC_LAST flag : Z) (c : call) : bool :=
  match c with
  | ConfigureCtx2 f v => accepted2 RCC_LAST f v && (f =? flag)
  | _ => false
  end.

(** The flags that the one-argument calls of a sequence get accepted, in
    order. *)
Definition accepted_flags (RCE_LAST : Z) (cs : list call) : list Z :=
  omap (fun c => match c with
                 | ConfigureCtx1 f => if accepted1 RCE_LAST f then Some f else None
                 | _ => None
                 end) cs.

(** A context configuration in order: [n] cells, none negative, and a flags
    word in [0, 2^k). *)
Definition well_formed (n : nat) (k : Z) (c : rtp_ctx_conf) : Prop :=
  length (ctx_values c) = n
  /\ Forall (fun v => 0 <= v) (ctx_values c)
  /\ 0 <= flags c < 2 ^ k.

Section calls.

Variables RCC_LAST RCE_LAST : Z.
Variable ts_override : Z -> bool.
Variables payload_type_of ts_increment_of : rtp_format_t -> Z.
Variable mtu : nat.
Variable max_queued_frames : nat.

(** One call on a stream: what it returns and the stream afterwards;
    [None], no defined behaviour, when the body dereferences a pointer
    that was never assigned. *)
Definition perform (c : call) (ms : media_stream.t) : option (outcome * media_stream.t) :=
  match c with
  | Init rnd =>
      let '(e, ms') :=
        media_stream.init payload_type_of ts_increment_of mtu max_queued_frames rnd ms in
      Some (Code e, ms')
  | PushFrame data flags =>
      match media_stream.push_frame ts_override data flags ms with
      | Some (e, ms') => Some (Code e, ms')
      | None => None
      end
  | PushFrameOwned data flags =>
      match media_stream.push_frame_owned ts_override data flags ms with
      | Some (e, ms') => Some (Code e, ms')
      | None => None
      end
  | PullFrame =>
      match media_stream.pull_frame ms with
      | Some (p, ms') => Some (Pulled p, ms')
      | None => None
      end
  | InstallReceiveHook arg hook =>
      match media_stream.install_receive_hook arg hook ms with
      | Some (e, ms') => Some (Code e, ms')
      | None => None
      end
  | InstallDeallocationHook hook =>
      match media_stream.install_deallocation_hook hook ms with
      | Some (e, ms') => Some (Code e, ms')
      | None => None
      end
  | SetMediaConfig config => Some (Void, media_stream.set_media_config config ms)
  | GetMediaConfig => Some (Pointer (media_stream.get_media_config ms), ms)
  | ConfigureCtx2 flag value =>
      let '(e, ms') := media_stream.configure_ctx2 RCC_LAST flag value ms in
      Some (Code e, ms')
  | ConfigureCtx1 flag =>
      let '(e, ms') := media_stream.configure_ctx1 RCE_LAST flag ms in
      Some (Code e, ms')
  end.

(** A sequence of calls, in order: what each returned and the stream at
    the end; [None] when the behaviour of one of them is undefined. *)
Fixpoint run (cs : list call) (ms : media_stream.t)
    : option (list outcome * media_stream.t) :=
  match cs with
  | [] => Some ([], ms)
  | c :: rest =>
      match perform c ms with
      | None => None
      | Some (o, ms1) =>
          match run rest ms1 with
          | None => None
          | Some (os, ms2) => Some (o :: os, ms2)
          end
      end
  end.

(** What a call makes of the context configuration, whatever else the
    stream holds. *)
Definition conf_after (c : call) (conf : rtp_ctx_conf) : rtp_ctx_conf :=
  match c with
  | ConfigureCtx2 flag value =>
      if accepted2 RCC_LAST flag value
      then {| flags := flags conf;
              ctx_values := <[Z.to_nat flag := value]> (ctx_values conf) |}
      else conf
  | ConfigureCtx1 flag =>
      if accepted1 RCE_LAST flag
      then {| flags := Z.lor (flags conf) flag; ctx_values := ctx_values conf |}
      else conf
  | _ => conf
  end.

(** What a sequence of calls makes of it. *)
Definition conf_of (cs : list call) (conf : rtp_ctx_conf) : rtp_ctx_conf :=
  foldl (fun conf c => conf_after c conf) conf cs.

End calls.

End client.

(** ** Calls and datagrams on a stream *)

Module stream.

(** What happens to a stream: a call of the client, [init] included, or a
    datagram from the network. *)
Inductive event : Type :=
  | Call (c : client.call)
  | Datagram (pkt : frame.rtp_packet).

(** What an event shows: the result of the call, or the frames that the
    datagram completes. *)
Inductive observation : Type :=
  | Returned (o : client.outcome)
  | Reassembled (fs : list frame.rtp_frame).


(** The event is an [init] that returned [RTP_OK]. *)
Definition init_succeeded (eo : event * observation) : bool :=
  match eo with
  | (Call c, Returned o) => client.init_succeeded (c, o)
  | _ => false
  end.


Section events.

Variables RCC_LAST RCE_LAST : Z.
Variable ts_override : Z -> bool.
Variables payload_type_of ts_increment_of : rtp_format_t -> Z.
Variable mtu : nat.
Variable max_queued_frames : nat.

(** One event; [None] when its behaviour is undefined. *)
Definition step (e : event) (ms : media_stream.t)
    : option (observation * media_stream.t) :=
  match e with
  | Call c =>
      match client.perform RCC_LAST RCE_LAST ts_override payload_type_of ts_increment_of
              mtu max_queued_frames c ms with
      | Some (o, ms') => Some (Returned o, ms')
      | None => None
      end
  | Datagram pkt =>
      match media_stream.on_datagram pkt ms with
      | Some (fs, ms') => Some (Reassembled fs, ms')
      | None => None
      end
  end.

(** A sequence of events, in order: one observation per event. *)
Fixpoint run (evs : list event) (ms : media_stream.t)
    : option (list observation * media_stream.t) :=
  match evs with
  | [] => Some ([], ms)
  | e :: rest =>
      match step e ms with
      | None => None
      | Some (ob, ms1) =>
          match run rest ms1 with
          | None => None
          | Some (obs, ms2) => Some (ob :: obs, ms2)
          end
      end
  end.

End events.

End stream.

(** ** A client for the examples *)

(** The stream of [sample_stream] as the constructor leaves it. *)
Definition fresh_stream (os : list socket.call -> socket.call -> rtp_error_t)
    : media_stream.t :=
  media_stream.new 4 os "192.0.2.1" 5004 5006 RTP_FORMAT_FRAGMENTING 0.

(** A system on which the first bind fails, the port being taken, and
    every other call succeeds. *)
Definition port_busy_once : list socket.call -> socket.call -> rtp_error_t :=
  fun made c =>
    match c with
    | socket.Bind _ _ _ =>
        if existsb (fun c' => match c' with socket.Bind _ _ _ => true | _ => false end) made
        then RTP_OK else RTP_GENERIC_ERROR
    | _ => RTP_OK
    end.

(** The calls of a client with the constants of [sample_stream]. *)
Definition sample_calls (cs : list client.call) (ms : media_stream.t)
    : option (list client.outcome * media_stream.t) :=
  client.run 4 8 (fun _ => false) (fun _ => 96) (fun _ => 3000) 1500 16 cs ms.



(** * Properties *)

(** ** Context configuration *)

Lemma configure_ctx2_rejects (RCC_LAST flag value : Z) (ms : media_stream.t) :
  flag < 0 \/ RCC_LAST <= flag \/ value < 0 ->
  media_stream.configure_ctx2 RCC_LAST flag value ms = (RTP_INVALID_VALUE, ms).
Proof.
  intros Hbad. unfold media_stream.configure_ctx2.
  destruct (flag <? 0) eqn:Hneg; [reflexivity|].
  destruct (RCC_LAST <=? flag) eqn:Hhigh; [reflexivity|].
  destruct (value <? 0) eqn:Hval; [reflexivity|].
  apply Z.ltb_ge in Hneg, Hval. apply Z.leb_gt in Hhigh. lia.
Qed.

Lemma configure_ctx2_accepts (RCC_LAST flag value : Z) (ms : media_stream.t) :
  0 <= flag < RCC_LAST -> 0 <= value ->
  media_stream.configure_ctx2 RCC_LAST flag value ms =
    (RTP_OK,
     media_stream.set_ctx_config
       {| flags := flags (media_stream.ctx_config_ ms);
          ctx_values := <[Z.to_nat flag := value]> (ctx_values (media_stream.ctx_config_ ms)) |}
       ms).
Proof.
  intros [Hlo Hhi] Hval. unfold media_stream.configure_ctx2.
  replace (flag <? 0) with false by (symmetry; apply Z.ltb_ge; lia).
  replace (RCC_LAST <=? flag) with false by (symmetry; apply Z.leb_gt; lia).
  replace (value <? 0) with false by (symmetry; apply Z.ltb_ge; lia).
  reflexivity.
Qed.

Lemma configure_ctx1_rejects (RCE_LAST flag : Z) (ms : media_stream.t) :
  flag < 0 \/ RCE_LAST <= flag ->
  media_stream.configure_ctx1 RCE_LAST flag ms = (RTP_INVALID_VALUE, ms).
Proof.
  intros Hbad. unfold media_stream.configure_ctx1.
  destruct (flag <? 0) eqn:Hneg; [reflexivity|].
  destruct (RCE_LAST <=? flag) eqn:Hhigh; [reflexivity|].
  apply Z.ltb_ge in Hneg. apply Z.leb_gt in Hhigh. lia.
Qed.

Lemma configure_ctx1_accepts (RCE_LAST flag : Z) (ms : media_stream.t) :
  0 <= flag < RCE_LAST ->
  media_stream.configure_ctx1 RCE_LAST flag ms =
    (RTP_OK,
     media_stream.set_ctx_config
       {| flags := Z.lor (flags (media_stream.ctx_config_ ms)) flag;
          ctx_values := ctx_values (media_stream.ctx_config_ ms) |}
       ms).
Proof.
  intros [Hlo Hhi]. unfold media_stream.configure_ctx1.
  replace (flag <? 0) with false by (symmetry; apply Z.ltb_ge; lia).
  replace (RCE_LAST <=? flag) with false by (symmetry; apply Z.leb_gt; lia).
  reflexivity.
Qed.

(** A call of either overload answers [RTP_OK] or [RTP_INVALID_VALUE], and
    the second only with the stream it was given. *)
Lemma configure_ctx2_invalid_inv (RCC_LAST flag value : Z) (ms ms' : media_stream.t) :
  media_stream.configure_ctx2 RCC_LAST flag value ms = (RTP_INVALID_VALUE, ms') -> ms' = ms.
Proof.
  unfold media_stream.configure_ctx2.
  destruct ((flag <? 0) || (RCC_LAST <=? flag) || (value <? 0)); intros Heq;
    inversion Heq; reflexivity.
Qed.

Lemma configure_ctx1_invalid_inv (RCE_LAST flag : Z) (ms ms' : media_stream.t) :
  media_stream.configure_ctx1 RCE_LAST flag ms = (RTP_INVALID_VALUE, ms') -> ms' = ms.
Proof.
  unfold media_stream.configure_ctx1.
  destruct ((flag <? 0) || (RCE_LAST <=? flag)); intros Heq; inversion Heq; reflexivity.
Qed.

(** C3.  [configure_ctx]: a flag that is negative or not below the bound of
    its enumeration, or (two-argument form) a negative value, is answered
    with [RTP_INVALID_VALUE]; an in-range flag with a non-negative value is
    answered with [RTP_OK] and stored: the value in the cell [flag] of
    [ctx_values] (read back from an array of [RCC_LAST] cells), the flag
    or-ed into [flags]. *)
Theorem configure_ctx_range_check (RCC_LAST RCE_LAST flag value : Z) (ms : media_stream.t) :
  (flag < 0 \/ RCC_LAST <= flag \/ value < 0 ->
     fst (media_stream.configure_ctx2 RCC_LAST flag value ms) = RTP_INVALID_VALUE)
  /\ (0 <= flag < RCC_LAST -> 0 <= value ->
        exists ms',
          media_stream.configure_ctx2 RCC_LAST flag value ms = (RTP_OK, ms')
          /\ ctx_values (media_stream.ctx_config_ ms') =
               <[Z.to_nat flag := value]> (ctx_values (media_stream.ctx_config_ ms))
          /\ flags (media_stream.ctx_config_ ms') = flags (media_stream.ctx_config_ ms)
          /\ (length (ctx_values (media_stream.ctx_config_ ms)) = Z.to_nat RCC_LAST ->
                ctx_values (media_stream.ctx_config_ ms') !! Z.to_nat flag = Some value))
  /\ (flag < 0 \/ RCE_LAST <= flag ->
        fst (media_stream.configure_ctx1 RCE_LAST flag ms) = RTP_INVALID_VALUE)
  /\ (0 <= flag < RCE_LAST ->
        exists ms',
          media_stream.configure_ctx1 RCE_LAST flag ms = (RTP_OK, ms')
          /\ flags (media_stream.ctx_config_ ms') =
               Z.lor (flags (media_stream.ctx_config_ ms)) flag
          /\ ctx_values (media_stream.ctx_config_ ms') =
               ctx_values (media_stream.ctx_config_ ms)).
Proof.
  repeat split.
  - intros Hbad. by rewrite configure_ctx2_rejects.
  - intros Hflag Hval. eexists. split; [by apply configure_ctx2_accepts|].
    cbn. repeat split. intros Hlen. apply list_lookup_insert_eq. lia.
  - intros Hbad. by rewrite configure_ctx1_rejects.
  - intros Hflag. eexists. split; [by apply configure_ctx1_accepts|]. by cbn.
Qed.

(** C10.  Both [configure_ctx] overloads are atomic on error: a call that
    answers [RTP_INVALID_VALUE] leaves the stream as it was, so the flags
    word and every entry of [ctx_values] are unchanged. *)
Theorem configure_ctx_atomic_on_error (RCC_LAST RCE_LAST flag value : Z)
    (ms ms' : media_stream.t) :
  media_stream.configure_ctx2 RCC_LAST flag value ms = (RTP_INVALID_VALUE, ms')
  \/ media_stream.configure_ctx1 RCE_LAST flag ms = (RTP_INVALID_VALUE, ms') ->
  flags (media_stream.ctx_config_ ms') = flags (media_stream.ctx_config_ ms)
  /\ ctx_values (media_stream.ctx_config_ ms') = ctx_values (media_stream.ctx_config_ ms)
  /\ ms' = ms.
Proof.
  intros [Herr | Herr].
  - apply configure_ctx2_invalid_inv in Herr. by subst.
  - apply configure_ctx1_invalid_inv in Herr. by subst.
Qed.

(** ** Hook installation *)

Lemma is_null_spec (p : Z) : is_null p = true <-> p = nullptr.
Proof. unfold is_null. apply Z.eqb_eq. Qed.

Lemma is_null_false (p : Z) : is_null p = false <-> p <> nullptr.
Proof. unfold is_null. apply Z.eqb_neq. Qed.

Lemma install_receive_hook_invalid (arg hook : Z) (ms : media_stream.t) :
  answer (media_stream.install_receive_hook arg hook ms) = Some RTP_INVALID_VALUE
  <-> hook = nullptr.
Proof.
  unfold media_stream.install_receive_hook. rewrite <- is_null_spec.
  destruct (is_null hook); cbn; [tauto|].
  destruct (media_stream.receiver_ ms); cbn; split; congruence.
Qed.

Lemma install_deallocation_hook_invalid (hook : Z) (ms : media_stream.t) :
  answer (media_stream.install_deallocation_hook hook ms) = Some RTP_INVALID_VALUE
  <-> hook = nullptr.
Proof.
  unfold media_stream.install_deallocation_hook. rewrite <- is_null_spec.
  destruct (is_null hook); cbn; [tauto|].
  destruct (media_stream.sender_ ms); cbn; split; congruence.
Qed.

Lemma install_receive_hook_ok (arg hook : Z) (ms : media_stream.t) (rc : receiver.t) :
  media_stream.receiver_ ms = Some rc -> hook <> nullptr ->
  media_stream.install_receive_hook arg hook ms =
    Some (RTP_OK, media_stream.set_receiver (receiver.install_recv_hook arg hook rc) ms).
Proof.
  intros Hrc Hhook. unfold media_stream.install_receive_hook.
  apply is_null_false in Hhook. by rewrite Hhook, Hrc.
Qed.

Lemma install_deallocation_hook_ok (hook : Z) (ms : media_stream.t) (sn : sender.t) :
  media_stream.sender_ ms = Some sn -> hook <> nullptr ->
  media_stream.install_deallocation_hook hook ms =
    Some (RTP_OK, media_stream.set_sender (sender.install_dealloc_hook hook sn) ms).
Proof.
  intros Hsn Hhook. unfold media_stream.install_deallocation_hook.
  apply is_null_false in Hhook. by rewrite Hhook, Hsn.
Qed.

(** C4.  [install_receive_hook] and [install_deallocation_hook] answer
    [RTP_INVALID_VALUE] exactly when the function pointer is null, on every
    stream; with a non-null pointer, on a stream that [init] has set up,
    they answer [RTP_OK] and the receiver (the sender) holds the hook
    afterwards. *)
Theorem install_hook_null_check (arg hook : Z) (ms : media_stream.t) :
  (answer (media_stream.install_receive_hook arg hook ms) = Some RTP_INVALID_VALUE
     <-> hook = nullptr)
  /\ (answer (media_stream.install_deallocation_hook hook ms) = Some RTP_INVALID_VALUE
        <-> hook = nullptr)
  /\ (media_stream.ready ms -> hook <> nullptr ->
        exists ms1 rc1 ms2 sn2,
          media_stream.install_receive_hook arg hook ms = Some (RTP_OK, ms1)
          /\ media_stream.receiver_ ms1 = Some rc1
          /\ receiver.recv_hook rc1 = hook
          /\ receiver.recv_hook_arg rc1 = arg
          /\ media_stream.install_deallocation_hook hook ms = Some (RTP_OK, ms2)
          /\ media_stream.sender_ ms2 = Some sn2
          /\ sender.dealloc_hook sn2 = hook).
Proof.
  split; [apply install_receive_hook_invalid|].
  split; [apply install_deallocation_hook_invalid|].
  intros (_ & [sn Hsn] & [rc Hrc]) Hhook. do 4 eexists.
  split; [by apply install_receive_hook_ok|].
  split; [reflexivity|]. split; [reflexivity|]. split; [reflexivity|].
  split; [by apply install_deallocation_hook_ok|].
  split; reflexivity.
Qed.

(** ** The socket of a stream *)

(** The calls [init_connection] makes on the socket, whatever the system
    answers: socket creation, then the bind and the remote address when the
    step before succeeded. *)
Lemma init_connection_calls (ms : media_stream.t) :
  exists made,
    socket.calls (media_stream.socket_ (snd (media_stream.init_connection ms))) =
      socket.calls (media_stream.socket_ ms) ++ made
    /\ (made = [socket.Init socket.AF_INET socket.SOCK_DGRAM 0]
        \/ made = [socket.Init socket.AF_INET socket.SOCK_DGRAM 0;
                   socket.Bind socket.AF_INET socket.INADDR_ANY (media_stream.src_port_ ms)]
        \/ made = [socket.Init socket.AF_INET socket.SOCK_DGRAM 0;
                   socket.Bind socket.AF_INET socket.INADDR_ANY (media_stream.src_port_ ms);
                   socket.SetSockaddr
                     (socket.create_sockaddr socket.AF_INET (media_stream.addr_ ms)
                        (media_stream.dst_port_ ms))]).
Proof.
  unfold media_stream.init_connection, socket.init, socket.bind, socket.perform.
  cbn. repeat case_decide; cbn; rewrite <- ?app_assoc; eexists; split; eauto.
Qed.

(** C9.  Whatever the flags and the context configuration of the stream,
    and whatever the system answers, no call that [init_connection] makes
    on the stream's socket enables [SO_REUSEADDR]: the option is as it was
    when the socket is bound, and on a freshly constructed stream no call
    at all has enabled it. *)
Theorem init_connection_keeps_reuseaddr_off (ms : media_stream.t) :
  (exists made,
     socket.calls (media_stream.socket_ (snd (media_stream.init_connection ms))) =
       socket.calls (media_stream.socket_ ms) ++ made
     /\ Forall (fun c => socket.enables_reuseaddr c = false) made)
  /\ forall RCC_LAST os addr src_port dst_port fmt flags,
       Forall (fun c => socket.enables_reuseaddr c = false)
         (socket.calls (media_stream.socket_
            (snd (media_stream.init_connection
               (media_stream.new RCC_LAST os addr src_port dst_port fmt flags))))).
Proof.
  assert (Hmade : forall ms0, exists made,
     socket.calls (media_stream.socket_ (snd (media_stream.init_connection ms0))) =
       socket.calls (media_stream.socket_ ms0) ++ made
     /\ Forall (fun c => socket.enables_reuseaddr c = false) made).
  { intros ms0. destruct (init_connection_calls ms0) as (made & Hcalls & Hshape).
    exists made. split; [exact Hcalls|].
    destruct Hshape as [-> | [-> | ->]]; repeat constructor. }
  split; [apply Hmade|].
  intros RCC_LAST os addr src_port dst_port fmt flags.
  destruct (Hmade (media_stream.new RCC_LAST os addr src_port dst_port fmt flags))
    as (made & -> & Hoff).
  exact Hoff.
Qed.

(** ** Sequence numbers on the wire *)

Lemma seq_numbers_nil (s : Z) : seq_numbers s 0 = [].
Proof. reflexivity. Qed.

Lemma seq_numbers_cons (s : Z) (n : nat) :
  seq_numbers s (S n) = s mod SEQ_MOD :: seq_numbers ((s + 1) mod SEQ_MOD) n.
Proof.
  unfold seq_numbers. rewrite seqZ_cons by lia. cbn [fmap list_fmap].
  rewrite Z.add_0_r. f_equal.
  replace (Z.pred (Z.of_nat (S n))) with (Z.of_nat n) by lia.
  replace (Z.succ 0) with (1 + 0) by lia.
  rewrite <- fmap_add_seqZ, <- list_fmap_compose.
  apply list_fmap_ext. intros _ i _. cbn.
  rewrite Zplus_mod_idemp_l. f_equal. lia.
Qed.

Lemma seq_numbers_app (s : Z) (a b : nat) :
  seq_numbers s (a + b) = seq_numbers s a ++ seq_numbers ((s + Z.of_nat a) mod SEQ_MOD) b.
Proof.
  revert s. induction a as [|a IH]; intros s.
  - cbn [Nat.add app seq_numbers_nil]. rewrite seq_numbers_nil. cbn [app].
    unfold seq_numbers. apply list_fmap_ext. intros _ i _. cbn.
    rewrite Z.add_0_r, Zplus_mod_idemp_l. reflexivity.
  - cbn [Nat.add]. rewrite !seq_numbers_cons, IH. cbn [app]. do 3 f_equal.
    rewrite Zplus_mod_idemp_l. f_equal. lia.
Qed.

(** The framer numbers the datagrams of one frame consecutively and leaves
    the session at the next number. *)
Lemma packetize_seqs (items : list (bool * frame.rtp_body)) (r : rtp.t) :
  0 <= rtp.seq r < SEQ_MOD ->
  wire_seqs (fst (formats.packetize items r)) = seq_numbers (rtp.seq r) (length items)
  /\ length (fst (formats.packetize items r)) = length items
  /\ rtp.seq (snd (formats.packetize items r)) =
       (rtp.seq r + Z.of_nat (length items)) mod SEQ_MOD
  /\ rtp.timestamp (snd (formats.packetize items r)) = rtp.timestamp r.
Proof.
  revert r. induction items as [|[m b] rest IH]; intros r Hr.
  - cbn. rewrite Z.add_0_r, Z.mod_small by exact Hr. done.
  - cbn [formats.packetize].
    assert (Hr' : 0 <= rtp.seq (rtp.inc_seq r) < SEQ_MOD)
      by (cbn; apply Z.mod_pos_bound; reflexivity).
    destruct (IH (rtp.inc_seq r) Hr') as (Hs & Hl & Hn & Ht).
    destruct (formats.packetize rest (rtp.inc_seq r)) as [pkts r'] eqn:Hp.
    cbn [fst snd] in *. cbn [length]. rewrite seq_numbers_cons.
    unfold wire_seqs in *. cbn [fmap list_fmap]. rewrite Hs. cbn.
    rewrite (Z.mod_small (rtp.seq r)) by exact Hr.
    repeat split; [lia | | exact Ht].
    rewrite Hn. cbn. rewrite Zplus_mod_idemp_l. f_equal. lia.
Qed.

Lemma sent_app (a b : list socket.call) :
  socket.sent (a ++ b) = socket.sent a ++ socket.sent b.
Proof.
  induction a as [|c a IH]; [reflexivity|]. destruct c; cbn; rewrite IH; reflexivity.
Qed.

Lemma sent_sends (pkts : list frame.rtp_packet) : socket.sent (socket.Send <$> pkts) = pkts.
Proof. induction pkts as [|pkt pkts IH]; cbn; [reflexivity | by rewrite IH]. Qed.

(** The send loop keeps the system behind the socket; when that system lets
    every call succeed, every datagram is handed over. *)
Lemma send_all_effect (pkts : list frame.rtp_packet) (sock : socket.t) :
  socket.os (snd (sender.send_all pkts sock)) = socket.os sock
  /\ (socket.always_ok sock ->
        fst (sender.send_all pkts sock) = RTP_OK
        /\ socket.calls (snd (sender.send_all pkts sock)) =
             socket.calls sock ++ (socket.Send <$> pkts)).
Proof.
  revert sock. induction pkts as [|pkt pkts IH]; intros sock.
  - cbn. rewrite app_nil_r. done.
  - cbn [sender.send_all socket.send socket.perform].
    set (sock1 := {| socket.os := socket.os sock;
                     socket.calls := socket.calls sock ++ [socket.Send pkt];
                     socket.remote := socket.remote sock |}).
    destruct (IH sock1) as [Hos Hok]. split.
    + case_decide; [exact Hos | reflexivity].
    + intros Hrel. rewrite (Hrel _ _). rewrite decide_True by reflexivity.
      destruct (Hok Hrel) as [Hret Hcalls]. split; [exact Hret|].
      rewrite Hcalls. cbn. rewrite <- app_assoc. reflexivity.
Qed.

(** [sender::push_frame]: what it adds to [produced] is numbered from the
    session's sequence number on, and the session moves past it; on a
    socket that never fails the same datagrams reach the wire. *)
Lemma sender_push_frame_seqs (ts_override : Z -> bool) (owned : bool)
    (data : option (list Byte.byte)) (flags : Z) (s : sender.t) (r : rtp.t)
    (sock : socket.t) :
  0 <= rtp.seq r < SEQ_MOD ->
  exists ret s' r' sock' new,
    sender.push_frame ts_override owned data flags s r sock = (ret, s', r', sock')
    /\ sender.produced s' = sender.produced s ++ new
    /\ wire_seqs new = seq_numbers (rtp.seq r) (length new)
    /\ rtp.seq r' = (rtp.seq r + Z.of_nat (length new)) mod SEQ_MOD
    /\ socket.os sock' = socket.os sock
    /\ (socket.always_ok sock ->
          socket.sent (socket.calls sock') = socket.sent (socket.calls sock) ++ new).
Proof.
  intros Hr. unfold sender.push_frame.
  assert (Hnone : forall ret : rtp_error_t, exists ret0 s' r' sock' new,
            (ret, s, r, sock) = (ret0, s', r', sock')
            /\ sender.produced s' = sender.produced s ++ new
            /\ wire_seqs new = seq_numbers (rtp.seq r) (length new)
            /\ rtp.seq r' = (rtp.seq r + Z.of_nat (length new)) mod SEQ_MOD
            /\ socket.os sock' = socket.os sock
            /\ (socket.always_ok sock ->
                  socket.sent (socket.calls sock') = socket.sent (socket.calls sock) ++ new)).
  { intros ret. exists ret, s, r, sock, []. rewrite !app_nil_r. cbn.
    rewrite Z.add_0_r, Z.mod_small by exact Hr. done. }
  destruct data as [[|b B]|]; [apply Hnone | | apply Hnone].
  destruct (formats.format (sender.fmt s) (sender.mtu s) (sender.ceiling s) (b :: B))
    as [items|];
    [|apply Hnone].
  destruct (packetize_seqs items r Hr) as (Hs & Hl & Hn & _).
  destruct (formats.packetize items r) as [pkts r1].
  destruct (send_all_effect pkts sock) as [Hos Hrel].
  destruct (sender.send_all pkts sock) as [ret sock'].
  cbn [fst snd] in *. do 4 eexists. exists pkts.
  split; [reflexivity|]. cbn [sender.produced]. split; [reflexivity|].
  rewrite Hl. split; [exact Hs|].
  split; [destruct (ts_override flags); cbn; exact Hn|].
  split; [exact Hos|].
  intros Hok. destruct (Hrel Hok) as [_ Hcalls]. by rewrite Hcalls, sent_app, sent_sends.
Qed.

(** An operation that leaves the session, the log of the sender and the
    socket alone produces no datagram. *)
Lemma step_seqs_idle (ms ms1 : media_stream.t) (r : rtp.t) :
  0 <= rtp.seq r < SEQ_MOD ->
  media_stream.rtp_ ms = Some r ->
  media_stream.ready ms1 ->
  media_stream.rtp_ ms1 = media_stream.rtp_ ms ->
  media_stream.produced ms1 = media_stream.produced ms ->
  media_stream.socket_ ms1 = media_stream.socket_ ms ->
  exists r1 new1,
    media_stream.ready ms1
    /\ media_stream.rtp_ ms1 = Some r1
    /\ media_stream.produced ms1 = media_stream.produced ms ++ new1
    /\ wire_seqs new1 = seq_numbers (rtp.seq r) (length new1)
    /\ rtp.seq r1 = (rtp.seq r + Z.of_nat (length new1)) mod SEQ_MOD
    /\ socket.os (media_stream.socket_ ms1) = socket.os (media_stream.socket_ ms)
    /\ (socket.always_ok (media_stream.socket_ ms) ->
          media_stream.captured ms1 = media_stream.captured ms ++ new1).
Proof.
  intros Hr Hrtp Hready Hrtp1 Hprod Hsock. exists r, [].
  unfold media_stream.captured. rewrite Hrtp1, Hprod, Hsock, !app_nil_r. cbn.
  rewrite Z.add_0_r, Z.mod_small by exact Hr. done.
Qed.

(** A push through the stream, of either overload. *)
Lemma push_frame_with_seqs (ts_override : Z -> bool) (owned : bool)
    (data : option (list Byte.byte)) (flags : Z) (ms : media_stream.t) (r : rtp.t) :
  media_stream.ready ms ->
  media_stream.rtp_ ms = Some r ->
  0 <= rtp.seq r < SEQ_MOD ->
  exists ret ms1 r1 new1,
    media_stream.push_frame_with ts_override owned data flags ms = Some (ret, ms1)
    /\ media_stream.ready ms1
    /\ media_stream.rtp_ ms1 = Some r1
    /\ media_stream.produced ms1 = media_stream.produced ms ++ new1
    /\ wire_seqs new1 = seq_numbers (rtp.seq r) (length new1)
    /\ rtp.seq r1 = (rtp.seq r + Z.of_nat (length new1)) mod SEQ_MOD
    /\ socket.os (media_stream.socket_ ms1) = socket.os (media_stream.socket_ ms)
    /\ (socket.always_ok (media_stream.socket_ ms) ->
          media_stream.captured ms1 = media_stream.captured ms ++ new1).
Proof.
  intros (_ & [sn Hsn] & [rc Hrc]) Hrtp Hr.
  unfold media_stream.push_frame_with, media_stream.produced, media_stream.ready,
    media_stream.captured.
  rewrite Hsn, Hrtp.
  destruct (sender_push_frame_seqs ts_override owned data flags sn r
              (media_stream.socket_ ms) Hr)
    as (ret & s' & r' & sock' & new & -> & Hprod & Hseqs & Hnext & Hos & Hcap).
  exists ret, (media_stream.set_rtp r'
                 (media_stream.set_sender s' (media_stream.set_socket sock' ms))), r', new.
  cbn. rewrite Hrc. repeat split; eauto.
Qed.

(** One operation on a stream that is set up. *)
Lemma step_seqs (RCC_LAST RCE_LAST : Z) (ts_override : Z -> bool) (o : media_stream.op)
    (ms : media_stream.t) (r : rtp.t) :
  media_stream.ready ms ->
  media_stream.rtp_ ms = Some r ->
  0 <= rtp.seq r < SEQ_MOD ->
  exists ps fs ms1 r1 new1,
    media_stream.step RCC_LAST RCE_LAST ts_override o ms = Some (ps, fs, ms1)
    /\ media_stream.ready ms1
    /\ media_stream.rtp_ ms1 = Some r1
    /\ media_stream.produced ms1 = media_stream.produced ms ++ new1
    /\ wire_seqs new1 = seq_numbers (rtp.seq r) (length new1)
    /\ rtp.seq r1 = (rtp.seq r + Z.of_nat (length new1)) mod SEQ_MOD
    /\ socket.os (media_stream.socket_ ms1) = socket.os (media_stream.socket_ ms)
    /\ (socket.always_ok (media_stream.socket_ ms) ->
          media_stream.captured ms1 = media_stream.captured ms ++ new1).
Proof.
  intros Hready Hrtp Hr.
  assert (Hidle : forall (ps : list receiver.pulled) (fs : list frame.rtp_frame) ms1,
            media_stream.ready ms1 ->
            media_stream.rtp_ ms1 = media_stream.rtp_ ms ->
            media_stream.produced ms1 = media_stream.produced ms ->
            media_stream.socket_ ms1 = media_stream.socket_ ms ->
            exists ps0 fs0 ms0 r1 new1,
              Some (ps, fs, ms1) = Some (ps0, fs0, ms0)
              /\ media_stream.ready ms0
              /\ media_stream.rtp_ ms0 = Some r1
              /\ media_stream.produced ms0 = media_stream.produced ms ++ new1
              /\ wire_seqs new1 = seq_numbers (rtp.seq r) (length new1)
              /\ rtp.seq r1 = (rtp.seq r + Z.of_nat (length new1)) mod SEQ_MOD
              /\ socket.os (media_stream.socket_ ms0) = socket.os (media_stream.socket_ ms)
              /\ (socket.always_ok (media_stream.socket_ ms) ->
                    media_stream.captured ms0 = media_stream.captured ms ++ new1)).
  { intros ps fs ms1 H1 H2 H3 H4.
    destruct (step_seqs_idle ms ms1 r Hr Hrtp H1 H2 H3 H4) as (r1 & new1 & Hall).
    exists ps, fs, ms1, r1, new1. split; [reflexivity | exact Hall]. }
  pose proof Hready as ([r0 Hr0] & [sn Hsn] & [rc Hrc]).
  assert (Hready_rc : forall rc', media_stream.ready (media_stream.set_receiver rc' ms))
    by (intros rc'; unfold media_stream.ready; cbn; eauto).
  assert (Hready_sn : forall sn', media_stream.ready (media_stream.set_sender sn' ms))
    by (intros sn'; unfold media_stream.ready; cbn; eauto).
  destruct o as [data flags | data flags | | arg hook | hook | config | flag value | flag | pkt];
    cbn [media_stream.step].
  - destruct (push_frame_with_seqs ts_override false data flags ms r Hready Hrtp Hr)
      as (ret & ms1 & r1 & new1 & Hpush & Hall).
    unfold media_stream.push_frame. rewrite Hpush. cbn. by exists [], [], ms1, r1, new1.
  - destruct (push_frame_with_seqs ts_override true data flags ms r Hready Hrtp Hr)
      as (ret & ms1 & r1 & new1 & Hpush & Hall).
    unfold media_stream.push_frame_owned. rewrite Hpush. cbn. by exists [], [], ms1, r1, new1.
  - unfold media_stream.pull_frame. rewrite Hrc.
    destruct (receiver.pull_frame rc) as [p rc'].
    apply Hidle; [apply Hready_rc | reflexivity | |reflexivity].
    unfold media_stream.produced. cbn. reflexivity.
  - unfold media_stream.install_receive_hook. rewrite Hrc.
    destruct (is_null hook); cbn; apply Hidle; try apply Hready_rc; try done.
  - unfold media_stream.install_deallocation_hook. rewrite Hsn.
    destruct (is_null hook); cbn; apply Hidle; try apply Hready_sn; try done.
    unfold media_stream.produced. cbn. by rewrite Hsn.
  - apply Hidle; try done.
  - unfold media_stream.configure_ctx2.
    destruct ((flag <? 0) || (RCC_LAST <=? flag) || (value <? 0)); cbn; apply Hidle; done.
  - unfold media_stream.configure_ctx1.
    destruct ((flag <? 0) || (RCE_LAST <=? flag)); cbn; apply Hidle; done.
  - unfold media_stream.on_datagram. rewrite Hrc.
    destruct (receiver.receive pkt rc) as [fs rc'].
    apply Hidle; [apply Hready_rc | reflexivity | |reflexivity].
    unfold media_stream.produced. cbn. reflexivity.
Qed.

(** A run of operations on a stream that is set up never touches an unset
    pointer; the datagrams it produces continue the numbering. *)
Lemma run_seqs (RCC_LAST RCE_LAST : Z) (ts_override : Z -> bool)
    (ops : list media_stream.op) (ms : media_stream.t) (r : rtp.t) :
  media_stream.ready ms ->
  media_stream.rtp_ ms = Some r ->
  0 <= rtp.seq r < SEQ_MOD ->
  exists ps fs ms' new,
    media_stream.run RCC_LAST RCE_LAST ts_override ops ms = Some (ps, fs, ms')
    /\ media_stream.ready ms'
    /\ media_stream.produced ms' = media_stream.produced ms ++ new
    /\ wire_seqs new = seq_numbers (rtp.seq r) (length new)
    /\ (socket.always_ok (media_stream.socket_ ms) ->
          media_stream.captured ms' = media_stream.captured ms ++ new).
Proof.
  revert ms r. induction ops as [|o rest IH]; intros ms r Hready Hrtp Hr.
  - exists [], [], ms, []. rewrite !app_nil_r. done.
  - destruct (step_seqs RCC_LAST RCE_LAST ts_override o ms r Hready Hrtp Hr)
      as (ps & fs & ms1 & r1 & new1 & Hstep & Hready1 & Hrtp1 & Hprod1 & Hseqs1 & Hnext1
          & Hos1 & Hcap1).
    assert (Hr1 : 0 <= rtp.seq r1 < SEQ_MOD)
      by (rewrite Hnext1; apply Z.mod_pos_bound; reflexivity).
    destruct (IH ms1 r1 Hready1 Hrtp1 Hr1)
      as (ps' & fs' & ms' & new & Hrun & Hready' & Hprod & Hseqs & Hcap).
    exists (ps ++ ps'), (fs ++ fs'), ms', (new1 ++ new).
    cbn [media_stream.run]. rewrite Hstep, Hrun.
    split; [reflexivity|]. split; [exact Hready'|].
    split; [rewrite Hprod, Hprod1, app_assoc; reflexivity|].
    split.
    + unfold wire_seqs in *. rewrite fmap_app, length_app, seq_numbers_app, Hseqs1.
      f_equal. rewrite Hseqs, Hnext1. reflexivity.
    + intros Hok. rewrite Hcap, (Hcap1 Hok), app_assoc; [reflexivity|].
      unfold socket.always_ok. rewrite Hos1. exact Hok.
Qed.

(** C6.  On a stream that is set up, any sequence of operations, among them
    any number of [push_frame] calls of either overload, runs to its end,
    and the M datagrams its sender produces carry the sequence numbers
    [s, s+1, ..., s+M-1] modulo 2^16, where [s] is the session's sequence
    number at the start; when no send fails, these are the datagrams a
    packet capture at the socket shows. *)
Theorem push_frame_sequence_numbers (RCC_LAST RCE_LAST : Z) (ts_override : Z -> bool)
    (ops : list media_stream.op) (ms : media_stream.t) (r : rtp.t) :
  media_stream.ready ms ->
  media_stream.rtp_ ms = Some r ->
  0 <= rtp.seq r < SEQ_MOD ->
  exists ps fs ms' new,
    media_stream.run RCC_LAST RCE_LAST ts_override ops ms = Some (ps, fs, ms')
    /\ media_stream.produced ms' = media_stream.produced ms ++ new
    /\ wire_seqs new =
         (fun i => (rtp.seq r + i) mod 65536) <$> seqZ 0 (Z.of_nat (length new))
    /\ (socket.always_ok (media_stream.socket_ ms) ->
          media_stream.captured ms' = media_stream.captured ms ++ new).
Proof.
  intros Hready Hrtp Hr.
  destruct (run_seqs RCC_LAST RCE_LAST ts_override ops ms r Hready Hrtp Hr)
    as (ps & fs & ms' & new & Hrun & _ & Hprod & Hseqs & Hcap).
  exists ps, fs, ms', new. repeat split; assumption.
Qed.

(** ** Fragmentation and reassembly *)















(** ** RTCP: BYE on termination *)

Lemma send_to_all_calls (f : frame.rtcp_frame) (ps : list Z) (sock : socket.t) :
  socket.calls (snd (rtcp.send_to_all f ps sock)) =
    socket.calls sock ++ ((fun p => socket.SendTo p f) <$> ps).
Proof.
  revert sock. induction ps as [|p ps IH]; intros sock; cbn.
  - by rewrite app_nil_r.
  - specialize (IH (snd (socket.sendto p f sock))).
    destruct (rtcp.send_to_all f ps (snd (socket.sendto p f sock))) as [ret' sock2] eqn:Hrest.
    unfold socket.sendto, socket.perform in *. cbn in *. rewrite Hrest. cbn.
    rewrite IH, <- app_assoc. reflexivity.
Qed.

(** Building and sending one packet: it goes to every participant and is
    recorded; nothing else changes. *)
Lemma emit_effect (f : frame.rtcp_frame) (s : rtcp.t) :
  let s' := snd (rtcp.emit f s) in
  rtcp.history s' = rtcp.Emitted f :: rtcp.history s
  /\ socket.calls (rtcp.socket_ s') =
       socket.calls (rtcp.socket_ s) ++ ((fun p => socket.SendTo p f) <$> rtcp.participant_ s)
  /\ rtcp.active_ s' = rtcp.active_ s
  /\ rtcp.runner_ s' = rtcp.runner_ s
  /\ rtcp.tp_ s' = rtcp.tp_ s /\ rtcp.tn_ s' = rtcp.tn_ s
  /\ rtcp.initial_ s' = rtcp.initial_ s.
Proof.
  unfold rtcp.emit.
  pose proof (send_to_all_calls f (rtcp.participant_ s) (rtcp.socket_ s)) as Hcalls.
  destruct (rtcp.send_to_all f (rtcp.participant_ s) (rtcp.socket_ s)) as [ret sock].
  cbn in *. rewrite Hcalls. done.
Qed.

Lemma generate_report_effect (s : rtcp.t) :
  exists f,
    rtcp.history (snd (rtcp.generate_report s)) = rtcp.Emitted f :: rtcp.history s
    /\ frame.is_bye f = false
    /\ frame.is_sender_report f = rtcp.sent_since_report (rtcp.history s)
    /\ frame.is_receiver_report f = negb (rtcp.sent_since_report (rtcp.history s))
    /\ rtcp.active_ (snd (rtcp.generate_report s)) = rtcp.active_ s
    /\ rtcp.tp_ (snd (rtcp.generate_report s)) = rtcp.tp_ s
    /\ rtcp.tn_ (snd (rtcp.generate_report s)) = rtcp.tn_ s
    /\ rtcp.initial_ (snd (rtcp.generate_report s)) = rtcp.initial_ s
    /\ socket.calls (rtcp.socket_ (snd (rtcp.generate_report s))) =
         socket.calls (rtcp.socket_ s)
           ++ ((fun p => socket.SendTo p f) <$> rtcp.participant_ s).
Proof.
  unfold rtcp.generate_report, rtcp.generate_receiver_report, rtcp.generate_sender_report.
  destruct (rtcp.sent_since_report (rtcp.history s)) eqn:Hsent; eexists;
    (split; [apply emit_effect|]); cbn; repeat split; apply emit_effect.
Qed.

(** The first [terminate] on an open connection. *)
Lemma terminate_open (s : rtcp.t) :
  rtcp.active s = true ->
  let s' := snd (rtcp.terminate s) in
  rtcp.active_ s' = false
  /\ rtcp.history s' = rtcp.Emitted frame.rtcp_bye_frame :: rtcp.history s
  /\ socket.calls (rtcp.socket_ s') =
       socket.calls (rtcp.socket_ s)
         ++ ((fun p => socket.SendTo p frame.rtcp_bye_frame) <$> rtcp.participant_ s)
  /\ rtcp.runner_ s' = option_map (fun _ => rtcp.Joined) (rtcp.runner_ s).
Proof.
  intros Hopen. unfold rtcp.terminate, rtcp.send_bye_packet. rewrite Hopen.
  pose proof (emit_effect frame.rtcp_bye_frame (rtcp.set_lifecycle (rtcp.runner_ s) false s))
    as (Hh & Hc & Ha & Hr & _).
  destruct (rtcp.emit frame.rtcp_bye_frame (rtcp.set_lifecycle (rtcp.runner_ s) false s))
    as [ret s1].
  cbn in *. rewrite Hh, Hc, Ha, Hr. done.
Qed.

(** A repeated [terminate] finds the connection closed and does nothing. *)
Lemma terminate_closed (s : rtcp.t) :
  rtcp.active s = false -> rtcp.terminate s = (RTP_OK, s).
Proof. intros Hclosed. unfold rtcp.terminate. by rewrite Hclosed. Qed.

(** One operation: only a [terminate] on an open connection adds a BYE, and
    it closes the connection; nothing reopens it. *)
Lemma apply_bye_count (o : rtcp.op) (s : rtcp.t) :
  rtcp.bye_count (rtcp.history (rtcp.apply o s)) =
    (rtcp.bye_count (rtcp.history s)
     + (if rtcp.is_terminate o && rtcp.active_ s then 1 else 0))%nat
  /\ rtcp.active_ (rtcp.apply o s) = rtcp.active_ s && negb (rtcp.is_terminate o).
Proof.
  destruct o as [alloc_ok | | | | conn | n | n | ssrc | ssrc | bw avg pm];
    cbn [rtcp.apply rtcp.is_terminate].
  - unfold rtcp.start. destruct alloc_ok; cbn; rewrite andb_true_r; split; lia || done.
  - destruct (rtcp.active_ s) eqn:Hact.
    + destruct (terminate_open s Hact) as (Ha & Hh & _). rewrite Ha, Hh. cbn. split; lia || done.
    + rewrite terminate_closed by exact Hact. cbn. rewrite Hact. split; lia || done.
  - unfold rtcp.runner_wakeup, rtcp.active. destruct (rtcp.active_ s) eqn:Hact.
    + set (s0 := rtcp.set_schedule _ _ _ _ s).
      destruct (generate_report_effect s0) as (f & Hh & Hbye & _ & _ & Ha & _).
      cbn. rewrite Hh, Ha. cbn. rewrite Hbye, Hact. split; lia || done.
    + rewrite Hact. cbn. split; lia || done.
  - destruct (generate_report_effect s) as (f & Hh & Hbye & _ & _ & Ha & _).
    rewrite Hh, Ha. cbn. rewrite Hbye, andb_true_r. split; lia || done.
  - cbn. rewrite andb_true_r. split; lia || done.
  - cbn. rewrite andb_true_r. split; lia || done.
  - cbn. rewrite andb_true_r. split; lia || done.
  - unfold rtcp.check_sender. destruct (rtcp.known _ _); cbn; rewrite andb_true_r;
      split; lia || done.
  - cbn. rewrite andb_true_r. split; lia || done.
  - cbn. rewrite andb_true_r. split; lia || done.
Qed.

Lemma run_bye_count (ops : list rtcp.op) (s : rtcp.t) :
  rtcp.bye_count (rtcp.history (rtcp.run ops s)) =
    (rtcp.bye_count (rtcp.history s)
     + (if rtcp.active_ s && existsb rtcp.is_terminate ops then 1 else 0))%nat
  /\ rtcp.active_ (rtcp.run ops s) = rtcp.active_ s && negb (existsb rtcp.is_terminate ops).
Proof.
  revert s. induction ops as [|o ops IH]; intros s.
  - cbn. rewrite andb_false_r, andb_true_r. split; lia || done.
  - unfold rtcp.run in *. cbn [foldl existsb].
    destruct (IH (rtcp.apply o s)) as [Hcount Hact].
    destruct (apply_bye_count o s) as [Hcount1 Hact1].
    rewrite Hcount, Hact, Hcount1, Hact1.
    destruct (rtcp.active_ s), (rtcp.is_terminate o), (existsb rtcp.is_terminate ops);
      cbn; split; lia || done.
Qed.

(** C1.  BYE is emitted at most once per termination.  The first
    [terminate] on an open session clears [active_], emits one BYE, sent to
    every participant, and joins the runner; a [terminate] on a closed
    session does nothing; so over any sequence of operations at most one BYE
    is added, and exactly one when the session was open and the sequence
    holds a [terminate], however often it is repeated. *)
Theorem terminate_emits_one_bye (s : rtcp.t) (ops : list rtcp.op) :
  (rtcp.active s = true ->
     rtcp.active_ (snd (rtcp.terminate s)) = false
     /\ rtcp.history (snd (rtcp.terminate s)) =
          rtcp.Emitted frame.rtcp_bye_frame :: rtcp.history s
     /\ socket.calls (rtcp.socket_ (snd (rtcp.terminate s))) =
          socket.calls (rtcp.socket_ s)
            ++ ((fun p => socket.SendTo p frame.rtcp_bye_frame) <$> rtcp.participant_ s)
     /\ rtcp.runner_ (snd (rtcp.terminate s)) =
          option_map (fun _ => rtcp.Joined) (rtcp.runner_ s))
  /\ (rtcp.active s = false -> rtcp.terminate s = (RTP_OK, s))
  /\ (rtcp.bye_count (rtcp.history (rtcp.run ops s)) <= rtcp.bye_count (rtcp.history s) + 1)%nat
  /\ (rtcp.active s = true -> existsb rtcp.is_terminate ops = true ->
        rtcp.bye_count (rtcp.history (rtcp.run ops s)) =
          (rtcp.bye_count (rtcp.history s) + 1)%nat).
Proof.
  split; [apply terminate_open|]. split; [apply terminate_closed|].
  destruct (run_bye_count ops s) as [Hcount _]. rewrite Hcount. split.
  - destruct (rtcp.active_ s && existsb rtcp.is_terminate ops); lia.
  - unfold rtcp.active. intros -> ->. reflexivity.
Qed.

(** ** RTCP: the report at [tn] *)

(** What an operation makes of "data sent since the previous report": a
    report clears it, data sent by the local side sets it, and nothing
    else changes it. *)
Lemma apply_sent_since_report (o : rtcp.op) (s : rtcp.t) :
  rtcp.sent_since_report (rtcp.history (rtcp.apply o s)) =
    if rtcp.emits_report o s then false
    else rtcp.sends_data o || rtcp.sent_since_report (rtcp.history s).
Proof.
  destruct o as [alloc_ok | | | | conn | n | n | ssrc | ssrc | bw avg pm];
    cbn [rtcp.apply rtcp.emits_report rtcp.sends_data orb].
  - unfold rtcp.start. destruct alloc_ok; reflexivity.
  - unfold rtcp.terminate, rtcp.send_bye_packet. destruct (rtcp.active s); [|reflexivity].
    pose proof (emit_effect frame.rtcp_bye_frame
                  (rtcp.set_lifecycle (rtcp.runner_ s) false s)) as (Hh & _).
    destruct (rtcp.emit frame.rtcp_bye_frame (rtcp.set_lifecycle (rtcp.runner_ s) false s))
      as [ret s1].
    cbn in *. rewrite Hh. reflexivity.
  - unfold rtcp.runner_wakeup. destruct (rtcp.active s); [|reflexivity].
    set (s0 := rtcp.set_schedule _ _ _ _ s).
    destruct (generate_report_effect s0) as (f & Hh & _ & Hsr & Hrr & _).
    cbn. rewrite Hh. cbn. rewrite Hsr, Hrr.
    by destruct (rtcp.sent_since_report (rtcp.history s0)).
  - destruct (generate_report_effect s) as (f & Hh & _ & Hsr & Hrr & _).
    rewrite Hh. cbn. rewrite Hsr, Hrr.
    by destruct (rtcp.sent_since_report (rtcp.history s)).
  - reflexivity.
  - reflexivity.
  - reflexivity.
  - unfold rtcp.check_sender. destruct (rtcp.known _ _); reflexivity.
  - reflexivity.
  - reflexivity.
Qed.

(** C2.  When the runner wakes at the scheduled time [tn] on an active
    session, it emits exactly one report, sent to every participant: a
    Sender Report if and only if the local side has sent data since the
    previous report, a Receiver Report otherwise; afterwards [tp] is the
    old [tn], [initial] is cleared and [tn] is recomputed as [tp] plus the
    deterministic interval.  "Sent data since the previous report" is
    what the operations make of it: false on a new session, cleared by
    every report, set by data the local side sends, and left alone by
    everything else. *)
Theorem runner_report_at_tn (s : rtcp.t) :
  rtcp.active s = true ->
  (exists f,
     rtcp.history (rtcp.runner_wakeup s) = rtcp.Emitted f :: rtcp.history s
     /\ socket.calls (rtcp.socket_ (rtcp.runner_wakeup s)) =
          socket.calls (rtcp.socket_ s)
            ++ ((fun p => socket.SendTo p f) <$> rtcp.participant_ s)
     /\ (frame.is_sender_report f = true <->
           rtcp.sent_since_report (rtcp.history s) = true)
     /\ (frame.is_receiver_report f = true <->
           rtcp.sent_since_report (rtcp.history s) = false))
  /\ rtcp.tp_ (rtcp.runner_wakeup s) = rtcp.tn_ s
  /\ rtcp.initial_ (rtcp.runner_wakeup s) = false
  /\ rtcp.tn_ (rtcp.runner_wakeup s) =
       (rtcp.tp_ (rtcp.runner_wakeup s)
        + rtcp.deterministic_interval (rtcp.runner_wakeup s))%Q
  /\ (forall os dst_addr dst_port src_port receiver,
        rtcp.sent_since_report
          (rtcp.history (rtcp.new os dst_addr dst_port src_port receiver)) = false)
  /\ (forall o s0,
        rtcp.sent_since_report (rtcp.history (rtcp.apply o s0)) =
          if rtcp.emits_report o s0 then false
          else rtcp.sends_data o || rtcp.sent_since_report (rtcp.history s0)).
Proof.
  intros Hact. unfold rtcp.runner_wakeup. rewrite Hact.
  set (s0 := rtcp.set_schedule (rtcp.tp_ s) (rtcp.tn_ s) (rtcp.tn_ s) (rtcp.initial_ s) s).
  destruct (generate_report_effect s0)
    as (f & Hh & _ & Hsr & Hrr & _ & _ & Htn & _ & Hcalls).
  split.
  { exists f. cbn. split; [exact Hh|]. split; [exact Hcalls|].
    rewrite Hsr, Hrr. cbn.
    destruct (rtcp.sent_since_report (rtcp.history s)); done. }
  split; [cbn; rewrite Htn; done|]. split; [reflexivity|]. split; [reflexivity|].
  split; [reflexivity|]. apply apply_sent_since_report.
Qed.

(** ** RTCP: the schedule *)









(** ** The fragmentation scenarios of the specification *)

(** One frame of 16 000 octets under the ceiling of 1400 yields 12
    datagrams, 11 of 1400 octets and one of 600; the first has the start
    flag and no marker, the last the end flag and the marker, the others
    neither. *)
Lemma scenario_fragmentation :
  let B := repeat Byte.x2a (16 * 1000) in
  fragment_view <$> fst (formats.packetize (formats.fragmenting 1400 B)
                           (rtp.new 96 3000 (7, 65530, 9)))
  = [(false, true, false, 1400%nat)]
    ++ replicate 10 (false, false, false, 1400%nat)
    ++ [(true, false, true, 600%nat)].
Proof. vm_compute. reflexivity. Qed.

(** The third and fifth fragment of a ten-fragment frame swapped: the
    receiver still delivers the full frame. *)
Lemma scenario_reorder_within_window :
  let B := repeat Byte.x01 4 ++ repeat Byte.x02 6 in
  let pkts := fst (formats.packetize (formats.fragmenting 1 B)
                     (rtp.new 96 3000 (7, 65530, 9))) in
  length pkts = 10%nat
  /\ fst (formats.depacketize_all (swap_third_and_fifth pkts) formats.depacketizer_new)
     = [{| frame.frame_timestamp := 9; frame.frame_payload := B |}].
Proof. vm_compute. done. Qed.

(** One fragment delayed by 200 sequence numbers with the window at 128:
    the fragment is dropped and the frame discarded; only the frame that
    follows is delivered, and no slot is left. *)
Lemma scenario_reorder_beyond_window :
  let r := rtp.new 96 3000 (7, 65530, 9) in
  let first := formats.packetize (formats.fragmenting 1 (repeat Byte.x01 300)) r in
  let second := formats.packetize (formats.fragmenting 1400 [Byte.x09]) (rtp.inc_ts (snd first)) in
  let out := formats.depacketize_all (delay_second 200 (fst first) ++ fst second)
               formats.depacketizer_new in
  fst out = [{| frame.frame_timestamp := 3009; frame.frame_payload := [Byte.x09] |}]
  /\ formats.dp_slots (snd out) = [].
Proof. vm_compute. done. Qed.

(** ** Further properties of media_stream.cc *)

(** X1.  [init] answers [RTP_OK] when [init_connection] does and
    [RTP_GENERIC_ERROR] whatever other code [init_connection] returns; on
    success the session state, the sender and the receiver are set, the
    sender and the receiver are started and the first sequence number is a
    16-bit value; on failure the three pointers stay as they were. *)
Theorem init_result (payload_type_of ts_increment_of : rtp_format_t -> Z)
    (mtu max_queued_frames : nat) (rnd : Z * Z * Z) (ms : media_stream.t) :
  let init := media_stream.init payload_type_of ts_increment_of mtu max_queued_frames in
  fst (init rnd ms) =
    (if decide (fst (media_stream.init_connection ms) = RTP_OK)
     then RTP_OK else RTP_GENERIC_ERROR)
  /\ (fst (media_stream.init_connection ms) = RTP_OK ->
        exists r sn rc,
          media_stream.rtp_ (snd (init rnd ms)) = Some r
          /\ media_stream.sender_ (snd (init rnd ms))
               = Some sn
          /\ media_stream.receiver_ (snd (init rnd ms))
               = Some rc
          /\ 0 <= rtp.seq r < SEQ_MOD
          /\ sender.running sn = true /\ receiver.active rc = true)
  /\ (fst (media_stream.init_connection ms) <> RTP_OK ->
        media_stream.rtp_ (snd (init rnd ms))
          = media_stream.rtp_ ms
        /\ media_stream.sender_ (snd (init rnd ms))
             = media_stream.sender_ ms
        /\ media_stream.receiver_ (snd (init rnd ms))
             = media_stream.receiver_ ms).
Proof.
  cbn zeta. unfold media_stream.init.
  assert (Hkeep : media_stream.rtp_ (snd (media_stream.init_connection ms)) = media_stream.rtp_ ms
                  /\ media_stream.sender_ (snd (media_stream.init_connection ms))
                       = media_stream.sender_ ms
                  /\ media_stream.receiver_ (snd (media_stream.init_connection ms))
                       = media_stream.receiver_ ms).
  { unfold media_stream.init_connection, socket.init, socket.bind, socket.perform.
    cbn. repeat case_decide; done. }
  destruct (media_stream.init_connection ms) as [ret ms1]. cbn [fst snd] in *.
  destruct rnd as [[r_ssrc r_seq] r_ts].
  repeat case_decide; try congruence; cbn [fst snd]; (split; [reflexivity|]); split;
    try done; try (intros _; exact Hkeep).
  intros _. do 3 eexists. repeat split; try reflexivity; cbn;
    apply Z.mod_pos_bound; reflexivity.
Qed.

(** X2.  [init_connection] returns the code of the first call that fails:
    the socket creation's, else the bind's, which is [RTP_OK] when both
    succeed; the bind is on the wildcard address and the stream's source
    port, and only after a successful bind is the remote address set, to
    the stream's address and destination port. *)
Theorem init_connection_result (ms : media_stream.t) :
  let sock := media_stream.socket_ ms in
  let c_init := socket.Init socket.AF_INET socket.SOCK_DGRAM 0 in
  let c_bind := socket.Bind socket.AF_INET socket.INADDR_ANY (media_stream.src_port_ ms) in
  let a_init := socket.os sock (socket.calls sock) c_init in
  let a_bind := socket.os sock (socket.calls sock ++ [c_init]) c_bind in
  fst (media_stream.init_connection ms) =
    (if decide (a_init = RTP_OK) then a_bind else a_init)
  /\ socket.remote (media_stream.socket_ (snd (media_stream.init_connection ms))) =
       (if decide (a_init = RTP_OK /\ a_bind = RTP_OK)
        then Some (socket.create_sockaddr socket.AF_INET (media_stream.addr_ ms)
                     (media_stream.dst_port_ ms))
        else socket.remote sock).
Proof.
  unfold media_stream.init_connection, socket.init, socket.bind, socket.perform.
  cbn. repeat case_decide; cbn; split; try reflexivity; tauto || congruence.
Qed.

(** X3.  A [configure_ctx] call changes only what it names: the
    two-argument form leaves every other cell of [ctx_values] and the flags
    word as they were, the one-argument form leaves [ctx_values] as it was
    and clears no bit of the flags word; neither touches the rest of the
    stream. *)
Theorem configure_ctx_frame (RCC_LAST RCE_LAST flag value : Z) (ms : media_stream.t) :
  let ms2 := snd (media_stream.configure_ctx2 RCC_LAST flag value ms) in
  let ms1 := snd (media_stream.configure_ctx1 RCE_LAST flag ms) in
  (forall i : nat, i <> Z.to_nat flag ->
     ctx_values (media_stream.ctx_config_ ms2) !! i
       = ctx_values (media_stream.ctx_config_ ms) !! i)
  /\ length (ctx_values (media_stream.ctx_config_ ms2))
       = length (ctx_values (media_stream.ctx_config_ ms))
  /\ flags (media_stream.ctx_config_ ms2) = flags (media_stream.ctx_config_ ms)
  /\ ctx_values (media_stream.ctx_config_ ms1) = ctx_values (media_stream.ctx_config_ ms)
  /\ (forall n, 0 <= n ->
        Z.testbit (flags (media_stream.ctx_config_ ms)) n = true ->
        Z.testbit (flags (media_stream.ctx_config_ ms1)) n = true)
  /\ media_stream.socket_ ms2 = media_stream.socket_ ms
  /\ media_stream.socket_ ms1 = media_stream.socket_ ms
  /\ media_stream.sender_ ms2 = media_stream.sender_ ms
  /\ media_stream.sender_ ms1 = media_stream.sender_ ms
  /\ media_stream.receiver_ ms2 = media_stream.receiver_ ms
  /\ media_stream.receiver_ ms1 = media_stream.receiver_ ms.
Proof.
  cbn zeta. unfold media_stream.configure_ctx2, media_stream.configure_ctx1.
  destruct ((flag <? 0) || (RCC_LAST <=? flag) || (value <? 0));
    destruct ((flag <? 0) || (RCE_LAST <=? flag)); cbn;
    repeat split; try done;
    try (intros i Hi; by rewrite list_lookup_insert_ne);
    try apply length_insert;
    intros n Hn Hbit; rewrite Z.lor_spec, Hbit; reflexivity.
Qed.

(** ** Sequences of calls on a stream *)

Section client_facts.

Variables RCC_LAST RCE_LAST : Z.
Variable ts_override : Z -> bool.
Variables payload_type_of ts_increment_of : rtp_format_t -> Z.
Variable mtu : nat.
Variable max_queued_frames : nat.

Local Abbreviation perform :=
  (client.perform RCC_LAST RCE_LAST ts_override payload_type_of ts_increment_of mtu
     max_queued_frames).
Local Abbreviation run :=
  (client.run RCC_LAST RCE_LAST ts_override payload_type_of ts_increment_of mtu
     max_queued_frames).
Local Abbreviation conf_of := (client.conf_of RCC_LAST RCE_LAST).

(** What [init_connection] leaves alone: everything but the socket and the
    remote address. *)
Lemma init_connection_members (ms : media_stream.t) :
  let ms1 := snd (media_stream.init_connection ms) in
  media_stream.rtp_ ms1 = media_stream.rtp_ ms
  /\ media_stream.sender_ ms1 = media_stream.sender_ ms
  /\ media_stream.receiver_ ms1 = media_stream.receiver_ ms
  /\ media_stream.ctx_config_ ms1 = media_stream.ctx_config_ ms
  /\ media_stream.media_config_ ms1 = media_stream.media_config_ ms
  /\ media_stream.fmt_ ms1 = media_stream.fmt_ ms
  /\ media_stream.addr_ ms1 = media_stream.addr_ ms
  /\ media_stream.flags_ ms1 = media_stream.flags_ ms
  /\ media_stream.src_port_ ms1 = media_stream.src_port_ ms
  /\ media_stream.dst_port_ ms1 = media_stream.dst_port_ ms.
Proof.
  unfold media_stream.init_connection, socket.init, socket.bind, socket.perform.
  cbn. repeat case_decide; done.
Qed.

(** What one call leaves alone, and what it makes of the two
    configurations. *)
Lemma perform_members (c : client.call) (ms ms' : media_stream.t) (o : client.outcome) :
  perform c ms = Some (o, ms') ->
  media_stream.fmt_ ms' = media_stream.fmt_ ms
  /\ media_stream.addr_ ms' = media_stream.addr_ ms
  /\ media_stream.flags_ ms' = media_stream.flags_ ms
  /\ media_stream.src_port_ ms' = media_stream.src_port_ ms
  /\ media_stream.dst_port_ ms' = media_stream.dst_port_ ms
  /\ media_stream.ctx_config_ ms' = client.conf_after RCC_LAST RCE_LAST c (media_stream.ctx_config_ ms)
  /\ media_stream.media_config_ ms' =
       match c with
       | client.SetMediaConfig config => config
       | _ => media_stream.media_config_ ms
       end.
Proof.
  destruct c; cbn [client.perform client.conf_after].
  - pose proof (init_connection_members ms) as Hm. cbn zeta in Hm.
    unfold media_stream.init.
    destruct (media_stream.init_connection ms) as [ret ms1]. cbn [snd] in Hm.
    destruct Hm as (_ & _ & _ & Hc & Hmc & Hf & Ha & Hfl & Hs & Hd).
    case_decide; intros [= <- <-]; cbn; rewrite ?Hc, ?Hmc, ?Hf, ?Ha, ?Hfl, ?Hs, ?Hd; done.
  - unfold media_stream.push_frame, media_stream.push_frame_with.
    destruct (media_stream.sender_ ms), (media_stream.rtp_ ms); try discriminate.
    destruct (sender.push_frame _ _ _ _ _ _ _) as [[[? ?] ?] ?].
    intros [= <- <-]. done.
  - unfold media_stream.push_frame_owned, media_stream.push_frame_with.
    destruct (media_stream.sender_ ms), (media_stream.rtp_ ms); try discriminate.
    destruct (sender.push_frame _ _ _ _ _ _ _) as [[[? ?] ?] ?].
    intros [= <- <-]. done.
  - unfold media_stream.pull_frame.
    destruct (media_stream.receiver_ ms); try discriminate.
    destruct (receiver.pull_frame _) as [? ?]. intros [= <- <-]. done.
  - unfold media_stream.install_receive_hook.
    destruct (is_null hook); [intros [= <- <-]; done|].
    destruct (media_stream.receiver_ ms); try discriminate. intros [= <- <-]. done.
  - unfold media_stream.install_deallocation_hook.
    destruct (is_null hook); [intros [= <- <-]; done|].
    destruct (media_stream.sender_ ms); try discriminate. intros [= <- <-]. done.
  - intros [= <- <-]. done.
  - intros [= <- <-]. done.
  - unfold media_stream.configure_ctx2, client.accepted2.
    destruct ((flag <? 0) || (RCC_LAST <=? flag) || (value <? 0)); intros [= <- <-]; done.
  - unfold media_stream.configure_ctx1, client.accepted1.
    destruct ((flag <? 0) || (RCE_LAST <=? flag)); intros [= <- <-]; done.
Qed.

Lemma run_cons (c : client.call) (cs : list client.call) (ms : media_stream.t) :
  run (c :: cs) ms =
    match perform c ms with
    | None => None
    | Some (o, ms1) =>
        match run cs ms1 with
        | None => None
        | Some (os, ms2) => Some (o :: os, ms2)
        end
    end.
Proof. reflexivity. Qed.

Lemma run_cons_inv (c : client.call) (cs : list client.call) (ms ms' : media_stream.t)
    (os : list client.outcome) :
  run (c :: cs) ms = Some (os, ms') ->
  exists o ms1 os1,
    perform c ms = Some (o, ms1) /\ run cs ms1 = Some (os1, ms') /\ os = o :: os1.
Proof.
  rewrite run_cons.
  destruct (perform c ms) as [[o ms1]|]; [|discriminate].
  destruct (run cs ms1) as [[os1 ms2]|] eqn:Hrest; [|discriminate].
  intros [= <- <-]. exists o, ms1, os1. done.
Qed.

(** A sequence in two parts runs as the first part and then the second. *)
Lemma run_app (a b : list client.call) (ms : media_stream.t) :
  run (a ++ b) ms =
    match run a ms with
    | None => None
    | Some (os, ms1) =>
        match run b ms1 with
        | None => None
        | Some (os', ms2) => Some (os ++ os', ms2)
        end
    end.
Proof.
  revert ms. induction a as [|c a IH]; intros ms.
  - cbn [app client.run]. destruct (run b ms) as [[os' ms2]|]; reflexivity.
  - rewrite <- app_comm_cons, !run_cons.
    destruct (perform c ms) as [[o ms1]|]; [|reflexivity].
    rewrite IH. destruct (run a ms1) as [[os ms2]|]; [|reflexivity].
    destruct (run b ms2) as [[os' ms3]|]; reflexivity.
Qed.

Lemma run_length (cs : list client.call) (ms ms' : media_stream.t)
    (os : list client.outcome) :
  run cs ms = Some (os, ms') -> length os = length cs.
Proof.
  revert ms os. induction cs as [|c cs IH]; intros ms os.
  - intros [= <- <-]. reflexivity.
  - intros (o & ms1 & os1 & _ & Hrest & ->)%run_cons_inv. cbn. f_equal. eauto.
Qed.

(** The context configuration at the end of a sequence is the result of
    its [configure_ctx] calls, in order. *)
Lemma run_conf (cs : list client.call) (ms ms' : media_stream.t) (os : list client.outcome) :
  run cs ms = Some (os, ms') ->
  media_stream.ctx_config_ ms' =
    conf_of cs (media_stream.ctx_config_ ms).
Proof.
  unfold client.conf_of.
  revert ms os. induction cs as [|c cs IH]; intros ms os.
  - intros [= <- <-]. reflexivity.
  - intros (o & ms1 & os1 & Hc & Hrest & ->)%run_cons_inv.
    apply perform_members in Hc as (_ & _ & _ & _ & _ & Hconf & _).
    cbn [foldl]. rewrite <- Hconf. eauto.
Qed.

(** ** The three pointers *)

(** On a stream whose pointers were never assigned, a call that needs
    them has undefined behaviour; any other call returns, and the pointers
    are set afterwards exactly when the call was an [init] that returned
    [RTP_OK]. *)
Lemma perform_unset (c : client.call) (ms : media_stream.t) :
  client.unset ms ->
  if client.needs_workers c then perform c ms = None
  else exists o ms',
         perform c ms = Some (o, ms')
         /\ (if client.init_succeeded (c, o) then media_stream.ready ms'
             else client.unset ms').
Proof.
  intros (Hr & Hs & Hrc). unfold client.unset, media_stream.ready.
  destruct c; cbn [client.needs_workers client.perform client.init_succeeded].
  - pose proof (init_connection_members ms) as Hm. cbn zeta in Hm.
    unfold media_stream.init.
    destruct (media_stream.init_connection ms) as [ret ms1]. cbn [snd] in Hm.
    destruct Hm as (Hr1 & Hs1 & Hrc1 & _).
    case_decide; do 2 eexists; (split; [reflexivity|]); cbn.
    + rewrite Hr1, Hs1, Hrc1. done.
    + eauto.
  - unfold media_stream.push_frame, media_stream.push_frame_with. by rewrite Hs.
  - unfold media_stream.push_frame_owned, media_stream.push_frame_with. by rewrite Hs.
  - unfold media_stream.pull_frame. by rewrite Hrc.
  - unfold media_stream.install_receive_hook.
    destruct (is_null hook); cbn [negb]; [|by rewrite Hrc].
    do 2 eexists. split; [reflexivity|]. done.
  - unfold media_stream.install_deallocation_hook.
    destruct (is_null hook); cbn [negb]; [|by rewrite Hs].
    do 2 eexists. split; [reflexivity|]. done.
  - do 2 eexists. split; [reflexivity|]. done.
  - do 2 eexists. split; [reflexivity|]. done.
  - unfold media_stream.configure_ctx2.
    destruct ((flag <? 0) || (RCC_LAST <=? flag) || (value <? 0));
      do 2 eexists; (split; [reflexivity|]); done.
  - unfold media_stream.configure_ctx1.
    destruct ((flag <? 0) || (RCE_LAST <=? flag));
      do 2 eexists; (split; [reflexivity|]); done.
Qed.

(** On a stream whose pointers are set every call returns, and the
    pointers are set afterwards. *)
Lemma perform_ready (c : client.call) (ms : media_stream.t) :
  media_stream.ready ms ->
  exists o ms', perform c ms = Some (o, ms') /\ media_stream.ready ms'.
Proof.
  unfold media_stream.ready. intros ([r Hr] & [sn Hs] & [rc Hrc]).
  destruct c; cbn [client.perform].
  - pose proof (init_connection_members ms) as Hm. cbn zeta in Hm.
    unfold media_stream.init.
    destruct (media_stream.init_connection ms) as [ret ms1]. cbn [snd] in Hm.
    destruct Hm as (Hr1 & Hs1 & Hrc1 & _).
    case_decide; do 2 eexists; (split; [reflexivity|]); cbn.
    + rewrite Hr1, Hs1, Hrc1, Hr, Hs, Hrc. eauto.
    + eauto.
  - unfold media_stream.push_frame, media_stream.push_frame_with. rewrite Hs, Hr.
    destruct (sender.push_frame _ _ _ _ _ _ _) as [[[? ?] ?] ?].
    do 2 eexists. split; [reflexivity|]. cbn. rewrite Hrc. eauto.
  - unfold media_stream.push_frame_owned, media_stream.push_frame_with. rewrite Hs, Hr.
    destruct (sender.push_frame _ _ _ _ _ _ _) as [[[? ?] ?] ?].
    do 2 eexists. split; [reflexivity|]. cbn. rewrite Hrc. eauto.
  - unfold media_stream.pull_frame. rewrite Hrc.
    destruct (receiver.pull_frame _) as [? ?].
    do 2 eexists. split; [reflexivity|]. cbn. rewrite Hr, Hs. eauto.
  - unfold media_stream.install_receive_hook.
    destruct (is_null hook); [|rewrite Hrc];
      do 2 eexists; (split; [reflexivity|]); cbn; rewrite ?Hr, ?Hs, ?Hrc; eauto.
  - unfold media_stream.install_deallocation_hook.
    destruct (is_null hook); [|rewrite Hs];
      do 2 eexists; (split; [reflexivity|]); cbn; rewrite ?Hr, ?Hs, ?Hrc; eauto.
  - do 2 eexists. split; [reflexivity|]. cbn. rewrite Hr, Hs, Hrc. eauto.
  - do 2 eexists. split; [reflexivity|]. rewrite Hr, Hs, Hrc. eauto.
  - unfold media_stream.configure_ctx2.
    destruct ((flag <? 0) || (RCC_LAST <=? flag) || (value <? 0));
      do 2 eexists; (split; [reflexivity|]); cbn; rewrite Hr, Hs, Hrc; eauto.
  - unfold media_stream.configure_ctx1.
    destruct ((flag <? 0) || (RCE_LAST <=? flag));
      do 2 eexists; (split; [reflexivity|]); cbn; rewrite Hr, Hs, Hrc; eauto.
Qed.

Lemma run_ready (cs : list client.call) (ms : media_stream.t) :
  media_stream.ready ms ->
  exists os ms', run cs ms = Some (os, ms') /\ media_stream.ready ms'.
Proof.
  revert ms. induction cs as [|c cs IH]; intros ms Hready.
  - exists [], ms. done.
  - destruct (perform_ready c ms Hready) as (o & ms1 & Hc & Hready1).
    destruct (IH ms1 Hready1) as (os & ms2 & Hrest & Hready2).
    exists (o :: os), ms2. rewrite run_cons, Hc, Hrest. done.
Qed.

(** X4.  The pointers [rtp_], [sender_] and [receiver_] are assigned by a
    successful [init] and by nothing else; the constructor leaves them
    indeterminate.  From a stream on which none has been assigned, a
    sequence of calls whose behaviour is defined leaves all three assigned
    if one of its [init] calls returned [RTP_OK] and none assigned
    otherwise, and each of its calls that dereferences [sender_] or
    [receiver_] came after such an [init].  A sequence whose behaviour is
    undefined holds a push, a pull or the installation of a hook that is
    not null before any [init] has returned [RTP_OK]: that call
    dereferences an indeterminate pointer. *)
Theorem workers_lifecycle (cs : list client.call) (ms : media_stream.t) :
  client.unset ms ->
  match run cs ms with
  | Some (os, ms') =>
      length os = length cs
      /\ (if existsb client.init_succeeded (zip cs os) then media_stream.ready ms'
          else client.unset ms')
      /\ (forall pre c post,
            cs = pre ++ c :: post -> client.needs_workers c = true ->
            existsb client.init_succeeded (zip pre os) = true)
  | None =>
      exists pre c post os ms1,
        cs = pre ++ c :: post
        /\ run pre ms = Some (os, ms1)
        /\ existsb client.init_succeeded (zip pre os) = false
        /\ client.needs_workers c = true
  end.
Proof.
  revert ms. induction cs as [|c cs IH]; intros ms Hunset.
  - cbn. split; [reflexivity|]. split; [exact Hunset|].
    intros [|? ?] ? ? Hcs; discriminate Hcs.
  - rewrite run_cons. pose proof (perform_unset c ms Hunset) as Hc.
    destruct (client.needs_workers c) eqn:Hneeds.
    + rewrite Hc. exists [], c, cs, [], ms. done.
    + destruct Hc as (o & ms1 & Hc & Hafter). rewrite Hc.
      destruct (client.init_succeeded (c, o)) eqn:Hinit.
      * destruct (run_ready cs ms1 Hafter) as (os & ms2 & Hrest & Hready).
        rewrite Hrest. cbn [zip zip_with existsb]. rewrite Hinit. cbn [orb].
        split; [cbn; f_equal; eapply run_length; eassumption|].
        split; [exact Hready|].
        intros [|c0 pre] c1 post Hcs Hn; cbn in Hcs.
        -- injection Hcs as <- _. congruence.
        -- injection Hcs as <- _. cbn [zip zip_with existsb]. by rewrite Hinit.
      * specialize (IH ms1 Hafter).
        destruct (run cs ms1) as [[os ms2]|].
        -- destruct IH as (Hlen & Hend & Hbefore).
           cbn [zip zip_with existsb]. rewrite Hinit. cbn [orb].
           split; [cbn; by f_equal|]. split; [exact Hend|].
           intros [|c0 pre] c1 post Hcs Hn; cbn in Hcs.
           ++ injection Hcs as <- _. congruence.
           ++ injection Hcs as <- ->. cbn [zip zip_with existsb]. rewrite Hinit.
              cbn [orb]. eapply Hbefore; eauto.
        -- destruct IH as (pre & c1 & post & os & ms2 & -> & Hpre & Hnone & Hn).
           exists (c :: pre), c1, post, (o :: os), ms2.
           rewrite run_cons, Hc, Hpre. cbn [zip zip_with existsb]. rewrite Hinit.
           done.
Qed.

(** X5.  Once the pointers are set they stay set: on such a stream every
    sequence of calls runs to its end, each call returning, also when an
    [init] among them fails. *)
Theorem ready_stream_serves_every_call (cs : list client.call) (ms : media_stream.t) :
  media_stream.ready ms ->
  exists os ms',
    run cs ms = Some (os, ms') /\ length os = length cs /\ media_stream.ready ms'.
Proof.
  intros Hready. destruct (run_ready cs ms Hready) as (os & ms' & Hrun & Hready').
  exists os, ms'. split; [exact Hrun|]. split; [|exact Hready'].
  eapply run_length. exact Hrun.
Qed.

(** ** The context configuration *)

Lemma lor_below_pow2 (k a b : Z) :
  0 <= a < 2 ^ k -> 0 <= b < 2 ^ k -> 0 <= Z.lor a b < 2 ^ k.
Proof.
  intros Ha Hb.
  assert (Hnn : 0 <= Z.lor a b) by (apply Z.lor_nonneg; lia).
  split; [exact Hnn|].
  destruct (decide (Z.lor a b = 0)) as [->|Hne]; [lia|].
  apply Z.log2_lt_pow2; [lia|].
  rewrite Z.log2_lor by lia.
  assert (Hlog : forall x, 0 <= x < 2 ^ k -> x <> 0 -> Z.log2 x < k).
  { intros x Hx Hx0. apply Z.log2_lt_pow2; lia. }
  destruct (decide (a = 0)) as [->|Ha0]; destruct (decide (b = 0)) as [->|Hb0].
  - exfalso. apply Hne. reflexivity.
  - rewrite Z.max_r by (change (Z.log2 0) with 0; apply Z.log2_nonneg). auto.
  - rewrite Z.max_l by (change (Z.log2 0) with 0; apply Z.log2_nonneg). auto.
  - apply Z.max_lub_lt; auto.
Qed.

Lemma accepted2_spec (flag value : Z) :
  client.accepted2 RCC_LAST flag value = true <-> 0 <= flag < RCC_LAST /\ 0 <= value.
Proof. unfold client.accepted2. lia. Qed.

Lemma accepted1_spec (flag : Z) :
  client.accepted1 RCE_LAST flag = true <-> 0 <= flag < RCE_LAST.
Proof. unfold client.accepted1. lia. Qed.

(** One call keeps the configuration in order. *)
Lemma conf_after_well_formed (k : Z) (c : client.call) (conf : rtp_ctx_conf) :
  RCE_LAST <= 2 ^ k ->
  client.well_formed (Z.to_nat RCC_LAST) k conf ->
  client.well_formed (Z.to_nat RCC_LAST) k (client.conf_after RCC_LAST RCE_LAST c conf).
Proof.
  intros Hk (Hlen & Hvals & Hflags). unfold client.well_formed.
  destruct c; cbn [client.conf_after]; try done.
  - destruct (client.accepted2 RCC_LAST flag value) eqn:Hacc; [|done].
    apply accepted2_spec in Hacc as [Hflag Hvalue]. cbn [ctx_values flags].
    rewrite length_insert. split; [exact Hlen|]. split; [|exact Hflags].
    apply Forall_insert; assumption.
  - destruct (client.accepted1 RCE_LAST flag) eqn:Hacc; [|done].
    apply accepted1_spec in Hacc. cbn [ctx_values flags].
    split; [exact Hlen|]. split; [exact Hvals|].
    apply lor_below_pow2; lia.
Qed.


Lemma conf_of_cons (c : client.call) (cs : list client.call) (conf : rtp_ctx_conf) :
  conf_of (c :: cs) conf = conf_of cs (client.conf_after RCC_LAST RCE_LAST c conf).
Proof. reflexivity. Qed.

Lemma conf_of_app (a b : list client.call) (conf : rtp_ctx_conf) :
  conf_of (a ++ b) conf = conf_of b (conf_of a conf).
Proof. apply foldl_app. Qed.

Lemma conf_of_unwritten (cell : Z) (cs : list client.call) (conf : rtp_ctx_conf) :
  0 <= cell ->
  forallb (fun c => negb (client.writes_cell RCC_LAST cell c)) cs = true ->
  ctx_values (conf_of cs conf) !! Z.to_nat cell = ctx_values conf !! Z.to_nat cell.
Proof.
  intros Hcell. unfold client.conf_of. revert conf.
  induction cs as [|c cs IH]; intros conf Hcs; [reflexivity|].
  cbn [forallb] in Hcs. apply andb_prop in Hcs as [Hc Hcs].
  cbn [foldl]. rewrite IH by exact Hcs. clear IH Hcs.
  destruct c; cbn [client.conf_after]; try reflexivity.
  - cbn [client.writes_cell] in Hc.
    destruct (client.accepted2 RCC_LAST flag value) eqn:Hacc; [|reflexivity].
    apply accepted2_spec in Hacc. cbn [ctx_values andb] in *.
    apply list_lookup_insert_ne. lia.
  - destruct (client.accepted1 RCE_LAST flag); reflexivity.
Qed.

Lemma conf_of_length (cs : list client.call) (conf : rtp_ctx_conf) :
  length (ctx_values (conf_of cs conf)) = length (ctx_values conf).
Proof.
  unfold client.conf_of. revert conf. induction cs as [|c cs IH]; intros conf; [reflexivity|].
  cbn [foldl]. rewrite IH.
  destruct c; cbn [client.conf_after]; try reflexivity.
  - destruct (client.accepted2 RCC_LAST flag value); [|reflexivity].
    cbn [ctx_values]. apply length_insert.
  - destruct (client.accepted1 RCE_LAST flag); reflexivity.
Qed.

Lemma conf_of_flags (cs : list client.call) (conf : rtp_ctx_conf) :
  flags (conf_of cs conf) = foldl Z.lor (flags conf) (client.accepted_flags RCE_LAST cs).
Proof.
  unfold client.conf_of, client.accepted_flags. revert conf.
  induction cs as [|c cs IH]; intros conf; [reflexivity|].
  cbn [foldl omap list_omap]. rewrite IH.
  destruct c; cbn [client.conf_after]; try reflexivity.
  - destruct (client.accepted2 RCC_LAST flag value); reflexivity.
  - destruct (client.accepted1 RCE_LAST flag); reflexivity.
Qed.

Lemma foldl_lor_testbit (l : list Z) (a i : Z) :
  Z.testbit (foldl Z.lor a l) i = Z.testbit a i || existsb (fun f => Z.testbit f i) l.
Proof.
  revert a. induction l as [|f l IH]; intros a; cbn [foldl existsb].
  - by rewrite orb_false_r.
  - rewrite IH, Z.lor_spec, orb_assoc. reflexivity.
Qed.

(** X6.  The context configuration stays in order.  The constructor leaves
    [RCC_LAST] cells, all 0, and a flags word of 0; whatever is called
    afterwards, and whether or not the calls succeed, there are still
    [RCC_LAST] cells, none negative, and the flags word is not negative
    and below every power of two that bounds [RCE_LAST]. *)
Theorem configuration_stays_well_formed (k : Z) :
  0 <= k -> RCE_LAST <= 2 ^ k ->
  (forall os addr src_port dst_port fmt stream_flags,
     let conf :=
       media_stream.ctx_config_
         (media_stream.new RCC_LAST os addr src_port dst_port fmt stream_flags) in
     length (ctx_values conf) = Z.to_nat RCC_LAST
     /\ Forall (fun v => v = 0) (ctx_values conf)
     /\ flags conf = 0
     /\ client.well_formed (Z.to_nat RCC_LAST) k conf)
  /\ (forall cs ms os ms',
        client.well_formed (Z.to_nat RCC_LAST) k (media_stream.ctx_config_ ms) ->
        run cs ms = Some (os, ms') ->
        client.well_formed (Z.to_nat RCC_LAST) k (media_stream.ctx_config_ ms')).
Proof.
  intros Hk0 Hk. split.
  - intros os addr src_port dst_port fmt stream_flags. unfold client.well_formed. cbn.
    rewrite length_replicate. split; [reflexivity|].
    split; [by apply Forall_replicate|]. split; [reflexivity|].
    split; [reflexivity|]. split.
    + apply Forall_replicate. lia.
    + split; [lia|]. apply Z.pow_pos_nonneg; lia.
  - intros cs ms os ms' Hwf Hrun. rewrite (run_conf cs ms ms' os Hrun).
    clear Hrun. generalize dependent (media_stream.ctx_config_ ms). clear ms.
    induction cs as [|c cs IH]; intros conf Hwf; [exact Hwf|].
    rewrite conf_of_cons. apply IH. apply conf_after_well_formed; assumption.
Qed.

(** X7.  A value stored in a cell of [ctx_values] is there until the next
    accepted write to that cell: when a call [configure_ctx(flag, value)]
    passes the range check, it returns [RTP_OK], and if no later call of
    the sequence passes the check with the same flag, the cell holds
    [value] at the end - whatever else is called in between, [init]
    included. *)
Theorem configure_ctx_last_write_wins (pre post : list client.call) (flag value : Z)
    (ms ms' : media_stream.t) (os : list client.outcome) :
  length (ctx_values (media_stream.ctx_config_ ms)) = Z.to_nat RCC_LAST ->
  client.accepted2 RCC_LAST flag value = true ->
  forallb (fun c => negb (client.writes_cell RCC_LAST flag c)) post = true ->
  run (pre ++ client.ConfigureCtx2 flag value :: post) ms = Some (os, ms') ->
  os !! length pre = Some (client.Code RTP_OK)
  /\ ctx_values (media_stream.ctx_config_ ms') !! Z.to_nat flag = Some value.
Proof.
  intros Hlen Hacc Hpost Hrun. split.
  - rewrite run_app in Hrun.
    destruct (run pre ms) as [[os1 ms1]|] eqn:Hpre; [|discriminate].
    destruct (run (client.ConfigureCtx2 flag value :: post) ms1)
      as [[os2 ms2]|] eqn:Hrest; [|discriminate].
    injection Hrun as <- <-.
    apply run_cons_inv in Hrest as (o & ms3 & os3 & Hc & _ & ->).
    apply run_length in Hpre.
    rewrite lookup_app_r by lia. rewrite Hpre, Nat.sub_diag. cbn.
    cbn [client.perform] in Hc. unfold media_stream.configure_ctx2 in Hc.
    unfold client.accepted2 in Hacc. apply negb_true_iff in Hacc. rewrite Hacc in Hc.
    by injection Hc as <- _.
  - rewrite (run_conf _ ms ms' os Hrun), conf_of_app, conf_of_cons.
    pose proof Hacc as [Hflag Hvalue]%accepted2_spec.
    rewrite conf_of_unwritten by (lia || exact Hpost).
    cbn [client.conf_after]. rewrite Hacc. cbn [ctx_values].
    apply list_lookup_insert_eq. rewrite conf_of_length, Hlen. lia.
Qed.

(** X8.  A cell of [ctx_values] changes only by an accepted
    [configure_ctx(flag, value)] with its own index: after a sequence of
    calls none of which is one, the cell is as it was. *)
Theorem unwritten_cell_keeps_value (cell : Z) (cs : list client.call)
    (ms ms' : media_stream.t) (os : list client.outcome) :
  0 <= cell ->
  forallb (fun c => negb (client.writes_cell RCC_LAST cell c)) cs = true ->
  run cs ms = Some (os, ms') ->
  ctx_values (media_stream.ctx_config_ ms') !! Z.to_nat cell
    = ctx_values (media_stream.ctx_config_ ms) !! Z.to_nat cell.
Proof.
  intros Hcell Hcs Hrun. rewrite (run_conf _ ms ms' os Hrun).
  apply (conf_of_unwritten cell cs _ Hcell Hcs).
Qed.

(** X9.  The flags word only gathers bits: after any sequence of calls a
    bit is set exactly when it was set before or one of the flags that a
    [configure_ctx(flag)] call of the sequence got past the range check
    has it.  No call clears a bit, and a rejected flag sets none. *)
Theorem flags_accumulate (cs : list client.call) (ms ms' : media_stream.t)
    (os : list client.outcome) (i : Z) :
  run cs ms = Some (os, ms') ->
  Z.testbit (flags (media_stream.ctx_config_ ms')) i =
    Z.testbit (flags (media_stream.ctx_config_ ms)) i
    || existsb (fun f => Z.testbit f i) (client.accepted_flags RCE_LAST cs).
Proof.
  intros Hrun. rewrite (run_conf _ ms ms' os Hrun), conf_of_flags. apply foldl_lor_testbit.
Qed.

(** X10.  The flags word does not depend on the order of the calls nor on
    their repetition: two sequences of calls, on streams with the same
    flags word, that get the same flags accepted end with the same flags
    word. *)
Theorem flags_independent_of_order (cs1 cs2 : list client.call)
    (ms1 ms1' ms2 ms2' : media_stream.t) (os1 os2 : list client.outcome) :
  flags (media_stream.ctx_config_ ms1) = flags (media_stream.ctx_config_ ms2) ->
  (forall f, f ∈ client.accepted_flags RCE_LAST cs1 <-> f ∈ client.accepted_flags RCE_LAST cs2) ->
  run cs1 ms1 = Some (os1, ms1') ->
  run cs2 ms2 = Some (os2, ms2') ->
  flags (media_stream.ctx_config_ ms1') = flags (media_stream.ctx_config_ ms2').
Proof.
  intros Hflags Hsame Hrun1 Hrun2.
  rewrite (run_conf _ ms1 ms1' os1 Hrun1), (run_conf _ ms2 ms2' os2 Hrun2).
  rewrite !conf_of_flags, Hflags.
  apply Z.bits_inj'. intros i _. rewrite !foldl_lor_testbit. f_equal.
  apply eq_true_iff_eq. rewrite !existsb_exists.
  split; intros (f & Hf & Hbit); exists f; (split; [|exact Hbit]);
    apply list_elem_of_In; apply Hsame; apply list_elem_of_In; exact Hf.
Qed.

(** ** The media configuration and the endpoint *)

(** X11.  [get_media_config] returns the pointer of the last
    [set_media_config]: whatever is called after it - [init], pushes,
    pulls, hook installations, [configure_ctx] - as long as it is not
    another [set_media_config], the pointer is returned unchanged. *)
Theorem media_config_last_set (pre post : list client.call) (config : voidp)
    (ms ms' : media_stream.t) (os : list client.outcome) :
  forallb (fun c => negb (client.sets_media_config c)) post = true ->
  run (pre ++ client.SetMediaConfig config :: post) ms = Some (os, ms') ->
  media_stream.get_media_config ms' = config
  /\ perform client.GetMediaConfig ms' = Some (client.Pointer config, ms').
Proof.
  intros Hpost Hrun.
  assert (Hget : media_stream.get_media_config ms' = config).
  { rewrite run_app in Hrun.
    destruct (run pre ms) as [[os1 ms1]|]; [|discriminate].
    destruct (run (client.SetMediaConfig config :: post) ms1)
      as [[os2 ms2]|] eqn:Hrest; [|discriminate].
    injection Hrun as _ <-.
    apply run_cons_inv in Hrest as (o & ms3 & os3 & Hc & Hrest & _).
    apply perform_members in Hc as (_ & _ & _ & _ & _ & _ & Hc).
    unfold media_stream.get_media_config. rewrite <- Hc. clear Hc.
    revert ms3 os3 Hrest. induction post as [|c post IH]; intros ms3 os3 Hrest.
    - by injection Hrest as _ <-.
    - cbn [forallb] in Hpost. apply andb_prop in Hpost as [Hc Hpost].
      apply run_cons_inv in Hrest as (o1 & ms4 & os4 & Hc4 & Hrest & _).
      apply perform_members in Hc4 as (_ & _ & _ & _ & _ & _ & Hc4).
      rewrite (IH Hpost ms4 os4 Hrest), Hc4.
      destruct c; try reflexivity. discriminate Hc. }
  split; [exact Hget|]. cbn [client.perform]. by rewrite Hget.
Qed.

(** X12.  What the constructor stores of its arguments stays: no sequence
    of calls changes the format, the address, the flags argument or the
    two ports. *)
Theorem endpoint_fixed (cs : list client.call) (ms ms' : media_stream.t)
    (os : list client.outcome) :
  run cs ms = Some (os, ms') ->
  media_stream.fmt_ ms' = media_stream.fmt_ ms
  /\ media_stream.addr_ ms' = media_stream.addr_ ms
  /\ media_stream.flags_ ms' = media_stream.flags_ ms
  /\ media_stream.src_port_ ms' = media_stream.src_port_ ms
  /\ media_stream.dst_port_ ms' = media_stream.dst_port_ ms.
Proof.
  revert ms os. induction cs as [|c cs IH]; intros ms os.
  - by intros [= <- <-].
  - intros (o & ms1 & os1 & Hc & Hrest & ->)%run_cons_inv.
    apply perform_members in Hc as (Hf & Ha & Hfl & Hs & Hd & _).
    destruct (IH ms1 os1 Hrest) as (Hf' & Ha' & Hfl' & Hs' & Hd').
    repeat split; congruence.
Qed.

End client_facts.

(** ** Pull and hook *)





Section hook_facts.

Variables RCC_LAST RCE_LAST : Z.
Variable ts_override : Z -> bool.
Variables payload_type_of ts_increment_of : rtp_format_t -> Z.
Variable mtu : nat.
Variable max_queued_frames : nat.

Local Abbreviation perform :=
  (client.perform RCC_LAST RCE_LAST ts_override payload_type_of ts_increment_of mtu
     max_queued_frames).
Local Abbreviation step :=
  (stream.step RCC_LAST RCE_LAST ts_override payload_type_of ts_increment_of mtu
     max_queued_frames).
Local Abbreviation run :=
  (stream.run RCC_LAST RCE_LAST ts_override payload_type_of ts_increment_of mtu
     max_queued_frames).







End hook_facts.


(** * The theorems at concrete inputs *)

(** [configure_ctx] on a fresh stream with [RCC_LAST = 4] and
    [RCE_LAST = 8]: flag -1 and value -3 are refused, flag 2 with value 7
    and flag 5 are stored. *)
Lemma configure_ctx_range_check_example :
  let ms := media_stream.new 4 socket.reliable "192.0.2.1" 5004 5006 RTP_FORMAT_FRAGMENTING 0 in
  fst (media_stream.configure_ctx2 4 (-1) 7 ms) = RTP_INVALID_VALUE
  /\ fst (media_stream.configure_ctx2 4 2 (-3) ms) = RTP_INVALID_VALUE
  /\ (exists ms', media_stream.configure_ctx2 4 2 7 ms = (RTP_OK, ms')
                  /\ ctx_values (media_stream.ctx_config_ ms') !! 2%nat = Some 7)
  /\ fst (media_stream.configure_ctx1 8 8 ms) = RTP_INVALID_VALUE
  /\ (exists ms', media_stream.configure_ctx1 8 5 ms = (RTP_OK, ms')
                  /\ flags (media_stream.ctx_config_ ms') = 5).
Proof.
  intros ms.
  destruct (configure_ctx_range_check 4 8 (-1) 7 ms) as (Hneg & _ & _ & _).
  destruct (configure_ctx_range_check 4 8 2 (-3) ms) as (Hval & _ & _ & _).
  destruct (configure_ctx_range_check 4 8 2 7 ms) as (_ & Hstore & _ & _).
  destruct (configure_ctx_range_check 4 8 8 0 ms) as (_ & _ & Hhigh & _).
  destruct (configure_ctx_range_check 4 8 5 0 ms) as (_ & _ & _ & Hflag).
  split; [apply Hneg; lia|]. split; [apply Hval; lia|].
  split.
  - destruct Hstore as (ms' & Hcall & _ & _ & Hread); [lia | lia |].
    exists ms'. split; [exact Hcall | apply Hread; reflexivity].
  - split; [apply Hhigh; lia|].
    destruct Hflag as (ms' & Hcall & Hflags & _); [lia|].
    exists ms'. split; [exact Hcall | exact Hflags].
Defined.

(** A refused [configure_ctx] call, in either form, returns the stream it
    was given. *)
Lemma configure_ctx_atomic_on_error_example :
  let ms := media_stream.new 4 socket.reliable "192.0.2.1" 5004 5006 RTP_FORMAT_FRAGMENTING 0 in
  media_stream.configure_ctx2 4 9 7 ms = (RTP_INVALID_VALUE, ms)
  /\ flags (media_stream.ctx_config_ ms) = flags (media_stream.ctx_config_ ms)
  /\ ctx_values (media_stream.ctx_config_ ms) = ctx_values (media_stream.ctx_config_ ms)
  /\ ms = ms.
Proof.
  intros ms. split; [reflexivity|].
  apply (configure_ctx_atomic_on_error 4 8 9 7 ms ms). left. reflexivity.
Defined.

(** Hooks on a stream that [init] has set up: the null pointer is refused,
    hook 42 is installed. *)
Lemma install_hook_null_check_example :
  let ms := sample_stream in
  answer (media_stream.install_receive_hook 7 nullptr ms) = Some RTP_INVALID_VALUE
  /\ answer (media_stream.install_deallocation_hook nullptr ms) = Some RTP_INVALID_VALUE
  /\ answer (media_stream.install_receive_hook 7 42 ms) = Some RTP_OK
  /\ answer (media_stream.install_deallocation_hook 42 ms) = Some RTP_OK.
Proof.
  intros ms.
  destruct (install_hook_null_check 7 nullptr ms) as (Hrecv & Hdealloc & _).
  destruct (install_hook_null_check 7 42 ms) as (_ & _ & Hinstall).
  split; [apply Hrecv; reflexivity|]. split; [apply Hdealloc; reflexivity|].
  destruct Hinstall as (ms1 & rc1 & ms2 & sn2 & Hr & _ & _ & _ & Hd & _ & _).
  - unfold media_stream.ready. cbn. eauto.
  - discriminate.
  - rewrite Hr, Hd. split; reflexivity.
Defined.

(** Two frames of 3000 and 5 octets pushed on a stream whose first sequence
    number is 65535: the numbering runs through the wrap. *)
Lemma push_frame_sequence_numbers_example :
  let ms := sample_stream in
  exists ps fs ms' new,
    media_stream.run 4 8 (fun _ => false)
      [media_stream.PushFrame (Some (repeat Byte.x2a 3000)) 0;
       media_stream.PullFrame;
       media_stream.ConfigureCtx1 2;
       media_stream.PushFrameOwned (Some (repeat Byte.x07 5)) 0] ms = Some (ps, fs, ms')
    /\ media_stream.produced ms' = media_stream.produced ms ++ new
    /\ wire_seqs new = (fun i => (65535 + i) mod 65536) <$> seqZ 0 (Z.of_nat (length new))
    /\ (socket.always_ok (media_stream.socket_ ms) ->
          media_stream.captured ms' = media_stream.captured ms ++ new).
Proof.
  intros ms.
  apply (push_frame_sequence_numbers 4 8 (fun _ => false) _ ms
           (rtp.new 96 3000 (1, 65535, 3))).
  - unfold media_stream.ready. cbn. eauto.
  - reflexivity.
  - split; [vm_compute; discriminate | reflexivity].
Defined.



(** A started session with two participants: three [terminate] calls among
    other operations leave one BYE, sent to both. *)
Lemma terminate_emits_one_bye_example :
  let s := rtcp.run [rtcp.AddParticipant 11; rtcp.AddParticipant 12; rtcp.Start true]
             (sample_session false) in
  let ops := [rtcp.Terminate; rtcp.Wakeup; rtcp.Terminate; rtcp.GenerateReport;
              rtcp.Terminate] in
  rtcp.active s = true
  /\ socket.calls (rtcp.socket_ (snd (rtcp.terminate s))) =
       [socket.SendTo 11 frame.rtcp_bye_frame; socket.SendTo 12 frame.rtcp_bye_frame]
  /\ rtcp.runner_ (snd (rtcp.terminate s)) = Some rtcp.Joined
  /\ rtcp.terminate (snd (rtcp.terminate s)) = (RTP_OK, snd (rtcp.terminate s))
  /\ rtcp.bye_count (rtcp.history (rtcp.run ops s)) = 1%nat.
Proof.
  intros s ops.
  destruct (terminate_emits_one_bye s ops) as (Hfirst & _ & _ & Hone).
  destruct (terminate_emits_one_bye (snd (rtcp.terminate s)) []) as (_ & Hagain & _).
  destruct (Hfirst eq_refl) as (Hclosed & _ & Hcalls & Hjoin).
  split; [reflexivity|]. split; [exact Hcalls|]. split; [exact Hjoin|].
  split; [apply Hagain; exact Hclosed|].
  apply Hone; reflexivity.
Defined.

(** A started session with one participant after three packets were sent:
    the runner's first report is a Sender Report and the schedule moves
    on; at the next wake-up nothing was sent since, and the report is a
    Receiver Report. *)
Lemma runner_report_at_tn_example :
  let s := rtcp.run [rtcp.AddParticipant 11; rtcp.Start true; rtcp.SenderIncPkts 3]
             (sample_session false) in
  let s' := rtcp.runner_wakeup s in
  rtcp.active s = true
  /\ rtcp.sent_since_report (rtcp.history s) = true
  /\ (exists f,
        rtcp.history s' = rtcp.Emitted f :: rtcp.history s
        /\ socket.calls (rtcp.socket_ s') = socket.calls (rtcp.socket_ s) ++ [socket.SendTo 11 f]
        /\ frame.is_sender_report f = true)
  /\ rtcp.tp_ s' = rtcp.tn_ s
  /\ rtcp.initial_ s' = false
  /\ rtcp.tn_ s' = (rtcp.tp_ s' + rtcp.deterministic_interval s')%Q
  /\ rtcp.active s' = true
  /\ rtcp.sent_since_report (rtcp.history s') = false
  /\ (exists f,
        rtcp.history (rtcp.runner_wakeup s') = rtcp.Emitted f :: rtcp.history s'
        /\ frame.is_receiver_report f = true).
Proof.
  intros s s'.
  destruct (runner_report_at_tn s eq_refl)
    as ((f & Hh & Hcalls & Hsr & _) & Htp & Hinit & Htn & _ & _).
  destruct (runner_report_at_tn s' eq_refl) as ((f' & Hh' & _ & _ & Hrr') & _).
  split; [reflexivity|]. split; [reflexivity|].
  split; [exists f; split; [exact Hh|]; split; [exact Hcalls | by apply Hsr]|].
  split; [exact Htp|]. split; [exact Hinit|]. split; [exact Htn|].
  split; [reflexivity|]. split; [reflexivity|].
  exists f'. split; [exact Hh' | by apply Hrr'].
Defined.


(** A client on a system where the port is taken at first: the
    configuration calls and the null hook are served before any [init], the
    first [init] fails and leaves the pointers unset, the second sets
    them, and the push and the pull that follow find them set. *)
Lemma workers_lifecycle_example :
  let ms := fresh_stream port_busy_once in
  let cs := [client.ConfigureCtx2 1 5; client.InstallReceiveHook 7 nullptr;
             client.Init (1, 65535, 3); client.SetMediaConfig 9;
             client.Init (1, 65535, 3);
             client.PushFrame (Some [Byte.x61; Byte.x62]) 0; client.PullFrame] in
  client.unset ms
  /\ fst <$> sample_calls cs ms =
       Some [client.Code RTP_OK; client.Code RTP_INVALID_VALUE;
             client.Code RTP_GENERIC_ERROR; client.Void; client.Code RTP_OK;
             client.Code RTP_OK; client.Pulled receiver.Blocks]
  /\ match sample_calls cs ms with
     | Some (os, ms') =>
         length os = length cs
         /\ (if existsb client.init_succeeded (zip cs os) then media_stream.ready ms'
             else client.unset ms')
         /\ (forall pre c post,
               cs = pre ++ c :: post -> client.needs_workers c = true ->
               existsb client.init_succeeded (zip pre os) = true)
     | None =>
         exists pre c post os ms1,
           cs = pre ++ c :: post
           /\ sample_calls pre ms = Some (os, ms1)
           /\ existsb client.init_succeeded (zip pre os) = false
           /\ client.needs_workers c = true
     end.
Proof.
  intros ms cs.
  assert (Hunset : client.unset ms) by (repeat split).
  split; [exact Hunset|]. split; [vm_compute; reflexivity|].
  exact (workers_lifecycle 4 8 (fun _ => false) (fun _ => 96) (fun _ => 3000) 1500 16
           cs ms Hunset).
Defined.

(** On the sample stream a failing [init] among pushes, pulls and hook
    installations: every call returns. *)
Lemma ready_stream_serves_every_call_example :
  let ms := sample_stream in
  let cs := [client.PullFrame; client.InstallDeallocationHook 42;
             client.Init (1, 7, 3); client.PushFrameOwned None 0;
             client.InstallReceiveHook 7 42; client.PullFrame] in
  media_stream.ready ms
  /\ exists os ms',
       sample_calls cs ms = Some (os, ms') /\ length os = length cs
       /\ media_stream.ready ms'.
Proof.
  intros ms cs.
  assert (Hready : media_stream.ready ms) by (unfold media_stream.ready; cbn; eauto).
  split; [exact Hready|].
  exact (ready_stream_serves_every_call 4 8 (fun _ => false) (fun _ => 96)
           (fun _ => 3000) 1500 16 cs ms Hready).
Defined.

(** With [RCC_LAST = 4] and [RCE_LAST = 8 = 2^3]: accepted and refused
    calls of both forms around an [init] leave four cells, none negative,
    and a flags word below 8. *)
Lemma configuration_stays_well_formed_example :
  let ms := fresh_stream socket.reliable in
  let cs := [client.ConfigureCtx1 5; client.ConfigureCtx2 2 7; client.ConfigureCtx2 4 1;
             client.Init (1, 2, 3); client.ConfigureCtx1 6; client.ConfigureCtx2 0 (-1)] in
  0 <= 3 /\ 8 <= 2 ^ 3
  /\ length (ctx_values (media_stream.ctx_config_ ms)) = Z.to_nat 4
  /\ Forall (fun v => v = 0) (ctx_values (media_stream.ctx_config_ ms))
  /\ flags (media_stream.ctx_config_ ms) = 0
  /\ client.well_formed 4 3 (media_stream.ctx_config_ ms)
  /\ exists os ms',
       sample_calls cs ms = Some (os, ms')
       /\ client.well_formed 4 3 (media_stream.ctx_config_ ms').
Proof.
  intros ms cs.
  assert (Hk : 0 <= 3) by lia. assert (Hbound : 8 <= 2 ^ 3) by (vm_compute; discriminate).
  destruct (configuration_stays_well_formed 4 8 (fun _ => false) (fun _ => 96)
              (fun _ => 3000) 1500 16 3 Hk Hbound) as [Hnew Hkeep].
  pose proof (Hnew socket.reliable "192.0.2.1" 5004 5006 RTP_FORMAT_FRAGMENTING 0) as Hfresh.
  cbn zeta in Hfresh. destruct Hfresh as (Hlen & Hzero & Hflags & Hwf).
  split; [exact Hk|]. split; [exact Hbound|].
  split; [exact Hlen|]. split; [exact Hzero|]. split; [exact Hflags|].
  split; [exact Hwf|].
  eexists _, _. split; [vm_compute; reflexivity|].
  eapply (Hkeep cs ms); [exact Hwf | vm_compute; reflexivity].
Defined.

(** Cell 3 is written twice, with an [init] in between; a refused write to
    it, a write to cell 2, a flag and a push follow: the cell holds the
    second value. *)
Lemma configure_ctx_last_write_wins_example :
  let ms := fresh_stream socket.reliable in
  let pre := [client.ConfigureCtx2 3 10; client.Init (1, 2, 3)] in
  let post := [client.ConfigureCtx2 3 (-1); client.ConfigureCtx2 2 8; client.ConfigureCtx1 4;
               client.PushFrame (Some [Byte.x61]) 0] in
  length (ctx_values (media_stream.ctx_config_ ms)) = Z.to_nat 4
  /\ client.accepted2 4 3 11 = true
  /\ forallb (fun c => negb (client.writes_cell 4 3 c)) post = true
  /\ exists os ms',
       sample_calls (pre ++ client.ConfigureCtx2 3 11 :: post) ms = Some (os, ms')
       /\ os !! length pre = Some (client.Code RTP_OK)
       /\ ctx_values (media_stream.ctx_config_ ms') !! Z.to_nat 3 = Some 11.
Proof.
  intros ms pre post. split; [reflexivity|]. split; [reflexivity|]. split; [reflexivity|].
  eexists _, _. split; [vm_compute; reflexivity|].
  eapply (configure_ctx_last_write_wins 4 8 (fun _ => false) (fun _ => 96) (fun _ => 3000)
           1500 16 pre post 3 11 ms); [reflexivity | reflexivity | reflexivity |].
  vm_compute. reflexivity.
Defined.

(** Cell 1 holds 6; a write to cell 2, refused writes to cell 1 and to a
    cell that does not exist, a flag and a [set_media_config] leave it
    there. *)
Lemma unwritten_cell_keeps_value_example :
  let ms := snd (media_stream.configure_ctx2 4 1 6 (fresh_stream socket.reliable)) in
  let cs := [client.ConfigureCtx2 2 8; client.ConfigureCtx2 1 (-4); client.ConfigureCtx2 5 1;
             client.ConfigureCtx1 1; client.SetMediaConfig 3] in
  0 <= 1
  /\ forallb (fun c => negb (client.writes_cell 4 1 c)) cs = true
  /\ ctx_values (media_stream.ctx_config_ ms) !! Z.to_nat 1 = Some 6
  /\ exists os ms',
       sample_calls cs ms = Some (os, ms')
       /\ ctx_values (media_stream.ctx_config_ ms') !! Z.to_nat 1
          = ctx_values (media_stream.ctx_config_ ms) !! Z.to_nat 1.
Proof.
  intros ms cs. split; [lia|]. split; [reflexivity|]. split; [reflexivity|].
  eexists _, _. split; [vm_compute; reflexivity|].
  eapply (unwritten_cell_keeps_value 4 8 (fun _ => false) (fun _ => 96) (fun _ => 3000)
           1500 16 1 cs ms); [lia | reflexivity |].
  vm_compute. reflexivity.
Defined.

(** The flags 4 and 1 are accepted and 9 is refused: bit 2 is set by the
    first, bit 3 by none. *)
Lemma flags_accumulate_example :
  let ms := fresh_stream socket.reliable in
  let cs := [client.ConfigureCtx1 4; client.ConfigureCtx1 9; client.ConfigureCtx1 1] in
  exists os ms',
    sample_calls cs ms = Some (os, ms')
    /\ client.accepted_flags 8 cs = [4; 1]
    /\ Z.testbit (flags (media_stream.ctx_config_ ms')) 2 =
         Z.testbit (flags (media_stream.ctx_config_ ms)) 2
         || existsb (fun f => Z.testbit f 2) (client.accepted_flags 8 cs)
    /\ Z.testbit (flags (media_stream.ctx_config_ ms')) 3 =
         Z.testbit (flags (media_stream.ctx_config_ ms)) 3
         || existsb (fun f => Z.testbit f 3) (client.accepted_flags 8 cs).
Proof.
  intros ms cs. eexists _, _. split; [vm_compute; reflexivity|]. split; [reflexivity|].
  split;
    eapply (flags_accumulate 4 8 (fun _ => false) (fun _ => 96) (fun _ => 3000) 1500 16
             cs ms); vm_compute; reflexivity.
Defined.

(** The flags 4 and 1 in one order on a fresh stream, and in the other
    order, with a repetition and among other calls, on the sample stream:
    the same flags word. *)
Lemma flags_independent_of_order_example :
  let ms1 := fresh_stream socket.reliable in
  let ms2 := sample_stream in
  let cs1 := [client.ConfigureCtx1 4; client.ConfigureCtx1 1; client.ConfigureCtx1 9] in
  let cs2 := [client.ConfigureCtx1 1; client.ConfigureCtx2 0 3; client.ConfigureCtx1 4;
              client.PullFrame; client.ConfigureCtx1 1; client.ConfigureCtx1 (-2)] in
  flags (media_stream.ctx_config_ ms1) = flags (media_stream.ctx_config_ ms2)
  /\ client.accepted_flags 8 cs1 = [4; 1]
  /\ client.accepted_flags 8 cs2 = [1; 4; 1]
  /\ exists os1 ms1' os2 ms2',
       sample_calls cs1 ms1 = Some (os1, ms1')
       /\ sample_calls cs2 ms2 = Some (os2, ms2')
       /\ flags (media_stream.ctx_config_ ms1') = flags (media_stream.ctx_config_ ms2').
Proof.
  intros ms1 ms2 cs1 cs2. split; [reflexivity|]. split; [reflexivity|].
  split; [reflexivity|].
  eexists _, _, _, _. split; [vm_compute; reflexivity|]. split; [vm_compute; reflexivity|].
  eapply (flags_independent_of_order 4 8 (fun _ => false) (fun _ => 96) (fun _ => 3000)
           1500 16 cs1 cs2 ms1 _ ms2 _ _ _).
  - reflexivity.
  - intros f. change (f ∈ [4; 1] <-> f ∈ [1; 4; 1]).
    rewrite !elem_of_cons, !elem_of_nil. tauto.
  - vm_compute. reflexivity.
  - vm_compute. reflexivity.
Defined.

(** The pointer 9 replaces 5 and is read back after a flag, a push and a
    hook installation. *)
Lemma media_config_last_set_example :
  let ms := fresh_stream socket.reliable in
  let pre := [client.SetMediaConfig 5; client.Init (1, 2, 3)] in
  let post := [client.ConfigureCtx1 2; client.PushFrame (Some [Byte.x61]) 0;
               client.InstallDeallocationHook 42] in
  forallb (fun c => negb (client.sets_media_config c)) post = true
  /\ exists os ms',
       sample_calls (pre ++ client.SetMediaConfig 9 :: post) ms = Some (os, ms')
       /\ media_stream.get_media_config ms' = 9
       /\ client.perform 4 8 (fun _ => false) (fun _ => 96) (fun _ => 3000) 1500 16
            client.GetMediaConfig ms' = Some (client.Pointer 9, ms').
Proof.
  intros ms pre post. split; [reflexivity|].
  eexists _, _. split; [vm_compute; reflexivity|].
  eapply (media_config_last_set 4 8 (fun _ => false) (fun _ => 96) (fun _ => 3000) 1500 16
           pre post 9 ms); [reflexivity |].
  vm_compute. reflexivity.
Defined.

(** Two [init] calls, the first failing, a push and a [set_media_config]:
    format, address, flags and ports are those of the constructor. *)
Lemma endpoint_fixed_example :
  let ms := fresh_stream port_busy_once in
  let cs := [client.Init (1, 2, 3); client.Init (4, 5, 6);
             client.PushFrame (Some [Byte.x61]) 0; client.SetMediaConfig 3] in
  exists os ms',
    sample_calls cs ms = Some (os, ms')
    /\ media_stream.fmt_ ms' = media_stream.fmt_ ms
    /\ media_stream.addr_ ms' = media_stream.addr_ ms
    /\ media_stream.flags_ ms' = media_stream.flags_ ms
    /\ media_stream.src_port_ ms' = media_stream.src_port_ ms
    /\ media_stream.dst_port_ ms' = media_stream.dst_port_ ms.
Proof.
  intros ms cs. eexists _, _. split; [vm_compute; reflexivity|].
  eapply (endpoint_fixed 4 8 (fun _ => false) (fun _ => 96) (fun _ => 3000) 1500 16 cs ms).
  vm_compute. reflexivity.
Defined.
